(** * Novizi back end: the request handlers of [events/views.py]

    A shallow embedding of the views of the [events] application and of the
    parts of Django's ORM and of Django REST framework (DRF) they run on,
    followed by the properties of the handlers.

    Layout:
    - the relational store (events, sessions, attendees) and the ORM calls
      the views make, in a monad that threads the store, raises Python
      exceptions and records the SQL statements issued;
    - DRF: API exceptions, permission classes, [get_object_or_404], the
      filter backends, [APIView.dispatch] and its exception handler;
    - the views, one Module per class of [views.py];
    - the constraints of the schema, the outcomes the statements name, and
      a sample store;
    - the lemmas and theorems, by view. *)

From Stdlib Require Import Ascii String.
From stdpp Require Import base list strings sorting gmap.

Local Open Scope string_scope.
Local Open Scope list_scope.
Local Open Scope Z_scope.

(** ** The data model *)

(** Primary keys and timestamps are integers; a timestamp is the number of
    clock ticks since the epoch, so [<] on timestamps is "strictly before". *)
Definition pk := Z.
Definition datetime := Z.

(** Modelled from the spec: [events/models.py] is not among the sources; the
    columns are the ones section 3 of the specification lists and the views
    touch.  [hosted_by] is a foreign key to the user table. *)
Record Event := {
  event_pk : pk;
  event_title : string;
  event_description : string;
  event_slug : string;
  event_date : datetime;
  hosted_by : pk;
  total_guest : Z;
  read_time : Z
}.

(** Modelled from the spec: the [Session] model.  [status] is a character
    column, compared by the views with string literals; [session_events] is
    the foreign key the views call [events]. *)
Record Session := {
  session_pk : pk;
  session_title : string;
  session_description : string;
  session_slug : string;
  session_status : string;
  session_type : string;
  proposed_by : pk;
  session_events : pk
}.

(** Modelled from the spec: the [Attendee] link model ([user], [events]). *)
Record Attendee := {
  attendee_pk : pk;
  attendee_user : pk;
  attendee_events : pk
}.

Record Store := {
  events : list Event;
  sessions : list Session;
  attendees : list Attendee
}.

#[global] Instance Event_eq_dec : EqDecision Event.
Proof. solve_decision. Defined.
#[global] Instance Session_eq_dec : EqDecision Session.
Proof. solve_decision. Defined.
#[global] Instance Attendee_eq_dec : EqDecision Attendee.
Proof. solve_decision. Defined.

(** [request.user]: a row of the user table, or Django's [AnonymousUser]. *)
Inductive User :=
| AnonymousUser
| AuthUser (id : pk).

Definition is_authenticated (u : User) : bool :=
  match u with AnonymousUser => false | AuthUser _ => true end.

(** [obj.fk == request.user]: Django compares model instances by primary
    key, and no row equals [AnonymousUser]. *)
Definition user_is (owner : pk) (u : User) : bool :=
  match u with AnonymousUser => false | AuthUser id => bool_decide (owner = id) end.

(** ** JSON values *)

#[local] Unset Elimination Schemes.
Inductive JSON :=
| JNull
| JBool (b : bool)
| JNum (n : Z)
| JStr (s : string)
| JArr (items : list JSON).
#[local] Set Elimination Schemes.

(** A Python [dict] with string keys. *)
Abbreviation Dict := (gmap string JSON).

(** [dict.update]: the keys of [new] are set in [d], replacing those there. *)
Definition dict_update (d : Dict) (new : list (string * JSON)) : Dict :=
  foldl (λ acc kv, <[kv.1 := kv.2]> acc) d new.

(** ** Exceptions *)

(** The [code] of a DRF error detail: DRF's own are strings, [views.py]
    passes integers. *)
Inductive ErrorCode :=
| CodeStr (s : string)
| CodeInt (n : Z).

Inductive APIClass :=
| APIException
| NotFound
| PermissionDenied
| NotAuthenticated
| MethodNotAllowed.

(** An instance of [rest_framework.exceptions.APIException] or of one of its
    subclasses, raised with a message.  [status_code] is the attribute the
    exception handler puts into the response. *)
Record APIExc := {
  exc_class : APIClass;
  status_code : Z;
  detail : string;
  code : ErrorCode
}.

(** [Invalid errors] is DRF's [ValidationError] as
    [is_valid(raise_exception=True)] and the filter backend raise it: its
    detail is the dictionary of field errors, its status 400. *)
Inductive Exc :=
| DoesNotExist
| MultipleObjectsReturned
| TypeError
| Http404
| API (e : APIExc)
| Invalid (errors : Dict).

Module status.
Definition HTTP_200_OK := 200.
Definition HTTP_201_CREATED := 201.
Definition HTTP_204_NO_CONTENT := 204.
Definition HTTP_400_BAD_REQUEST := 400.
Definition HTTP_401_UNAUTHORIZED := 401.
Definition HTTP_403_FORBIDDEN := 403.
Definition HTTP_404_NOT_FOUND := 404.
Definition HTTP_405_METHOD_NOT_ALLOWED := 405.
Definition HTTP_500_INTERNAL_SERVER_ERROR := 500.
End status.

(** The double quote, as a string. *)
Definition quote : string := String (ascii_of_nat 34) EmptyString.

(** [rest_framework.exceptions].  [APIException] has the class attribute
    [status_code = 500]; its constructor [__init__(detail, code)] stores
    [code] as the error code of the detail and leaves [status_code] alone.
    The subclasses override the class attribute; [MethodNotAllowed] puts
    the method of the request into its detail. *)
Module exceptions.
Definition APIException (detail : string) (code : ErrorCode) : APIExc :=
  {| exc_class := APIException;
     status_code := status.HTTP_500_INTERNAL_SERVER_ERROR;
     detail := detail; code := code |}.
Definition NotFound : APIExc :=
  {| exc_class := NotFound; status_code := status.HTTP_404_NOT_FOUND;
     detail := "Not found."; code := CodeStr "not_found" |}.
Definition PermissionDenied : APIExc :=
  {| exc_class := PermissionDenied; status_code := status.HTTP_403_FORBIDDEN;
     detail := "You do not have permission to perform this action.";
     code := CodeStr "permission_denied" |}.
Definition NotAuthenticated : APIExc :=
  {| exc_class := NotAuthenticated; status_code := status.HTTP_401_UNAUTHORIZED;
     detail := "Authentication credentials were not provided.";
     code := CodeStr "not_authenticated" |}.
Definition MethodNotAllowed (method : string) : APIExc :=
  {| exc_class := MethodNotAllowed;
     status_code := status.HTTP_405_METHOD_NOT_ALLOWED;
     detail := "Method " +:+ quote +:+ method +:+ quote +:+ " not allowed.";
     code := CodeStr "method_not_allowed" |}.
End exceptions.

(** ** The ORM monad *)

(** The SQL statements a handler issues, by kind and table: those of the
    ORM calls of [views.py] and of DRF's generic views.  What a serializer
    or a permission class of the application issues on its own (neither
    module is among the sources) is not recorded. *)
Inductive Query :=
| SQL_SELECT (table : string)
| SQL_INSERT (table : string)
| SQL_UPDATE (table : string)
| SQL_DELETE (table : string).

Inductive Result (A : Type) :=
| Ok (a : A)
| Raise (e : Exc).
Arguments Ok {A} a.
Arguments Raise {A} e.

(** A computation reads and writes the store, returns or raises, and leaves
    the list of statements it issued, oldest first. *)
Definition ORM (A : Type) : Type := Store → Result A * Store * list Query.

#[global] Instance ORM_ret : MRet ORM := λ A a st, (Ok a, st, []).

#[global] Instance ORM_bind : MBind ORM := λ A B f m st,
  match m st with
  | (Ok a, st', q) =>
      match f a st' with (r, st'', q') => (r, st'', q ++ q') end
  | (Raise e, st', q) => (Raise e, st', q)
  end.

Definition raise {A} (e : Exc) : ORM A := λ st, (Raise e, st, []).

(** [try: m except Exception as e: h e]. *)
Definition try_except {A} (m : ORM A) (h : Exc → ORM A) : ORM A := λ st,
  match m st with
  | (Raise e, st', q) =>
      match h e st' with (r, st'', q') => (r, st'', q ++ q') end
  | ok => ok
  end.

(** [if c: raise e]. *)
Definition raise_if (c : bool) (e : Exc) : ORM unit :=
  if c then raise e else mret ().

Definition query {A} (q : Query) (f : Store → A) : ORM A :=
  λ st, (Ok (f st), st, [q]).

Definition execute (q : Query) (f : Store → Store) : ORM unit :=
  λ st, (Ok (), f st, [q]).

(** ** Querysets *)

Definition event_table := "events_event".
Definition session_table := "events_session".
Definition attendee_table := "events_attendee".

Definition user_table := "auth_user".
Definition organizers_table := "events_event_organizers".
Definition tags_table := "events_event_tags".

(** A queryset is lazy: it names a table, the rows it selects from whatever
    the store holds when it is evaluated, and the relations it was told to
    prefetch. *)
Record QuerySet (A : Type) := {
  qs_table : string;
  qs_rows : Store → list A;
  qs_prefetch : list string
}.
Arguments qs_table {A} q.
Arguments qs_rows {A} q st.
Arguments qs_prefetch {A} q.

(** [.select_related(...)]: the related rows come with the same [SELECT],
    by a join; reading such a foreign key later costs no statement. *)
Definition select_related {A} (relations : list string) (qs : QuerySet A)
    : QuerySet A := qs.

(** [.prefetch_related(...)]: once the queryset is evaluated and has rows,
    one more [SELECT] per relation fetches the related rows. *)
Definition prefetch_related {A} (tables : list string) (qs : QuerySet A)
    : QuerySet A :=
  {| qs_table := qs_table qs; qs_rows := qs_rows qs;
     qs_prefetch := qs_prefetch qs ++ tables |}.

(** The statements of an evaluation that fetched [rows]: the [SELECT] on
    the table and, when there are rows, one on each prefetched relation. *)
Definition prefetch_queries {A} (tables : list string) (rows : list A)
    : list Query :=
  flat_map (λ t, match rows with [] => [] | _ => [SQL_SELECT t] end) tables.

Definition fetch_queries {A} (qs : QuerySet A) (rows : list A) : list Query :=
  SQL_SELECT (qs_table qs) :: prefetch_queries (qs_prefetch qs) rows.

(** [.filter(column=value)]. *)
Definition qs_filter {A} (P : A → Prop) `{∀ a, Decision (P a)}
    (qs : QuerySet A) : QuerySet A :=
  {| qs_table := qs_table qs;
     qs_rows := λ st, filter P (qs_rows qs st);
     qs_prefetch := qs_prefetch qs |}.

(** [.filter(relation__column=value)]: the condition is on a row of another
    table, read from the store when the queryset is evaluated. *)
Definition qs_filter_related {A} (P : Store → A → Prop)
    `{∀ st a, Decision (P st a)} (qs : QuerySet A) : QuerySet A :=
  {| qs_table := qs_table qs;
     qs_rows := λ st, filter (P st) (qs_rows qs st);
     qs_prefetch := qs_prefetch qs |}.

(** Evaluating a queryset: one [SELECT], and the prefetches. *)
Definition qs_fetch {A} (qs : QuerySet A) : ORM (list A) :=
  λ st, (Ok (qs_rows qs st), st, fetch_queries qs (qs_rows qs st)).

(** Reading a foreign key to the user table on a row that was fetched
    without [select_related]: the related row is loaded by a [SELECT], and
    compares by its primary key. *)
Definition related_user (fk : pk) : ORM pk :=
  query (SQL_SELECT user_table) (λ _, fk).

(** [QuerySet.get]: the one row selected; [DoesNotExist] when there is
    none, [MultipleObjectsReturned] when there are several. *)
Definition qs_get {A} (qs : QuerySet A) : ORM A :=
  rows ← qs_fetch qs;
  match rows with
  | [] => raise DoesNotExist
  | [row] => mret row
  | _ => raise MultipleObjectsReturned
  end.

(** [QuerySet.first]: the first row selected, or [None]. *)
Definition qs_first {A} (qs : QuerySet A) : ORM (option A) :=
  rows ← qs_fetch qs; mret (head rows).

(** Truth value of a queryset ([if qs:]): it is evaluated, and is true when
    it has a row. *)
Definition qs_bool {A} (qs : QuerySet A) : ORM bool :=
  rows ← qs_fetch qs; mret (bool_decide (rows ≠ [])).

Definition Event_objects : QuerySet Event :=
  {| qs_table := event_table; qs_rows := events; qs_prefetch := [] |}.
Definition Session_objects : QuerySet Session :=
  {| qs_table := session_table; qs_rows := sessions; qs_prefetch := [] |}.
Definition Attendee_objects : QuerySet Attendee :=
  {| qs_table := attendee_table; qs_rows := attendees; qs_prefetch := [] |}.

(** Lookups.  [events__slug] follows the foreign key of a session to its
    event row. *)
Definition slug_is (s : string) : Event → Prop :=
  λ e, event_slug e = s.
Definition event_date__gt (t : datetime) : Event → Prop :=
  λ e, t < event_date e.
Definition session_slug_is (s : string) : Session → Prop :=
  λ x, session_slug x = s.
Definition status_is (s : string) : Session → Prop :=
  λ x, session_status x = s.
Definition events__slug (s : string) : Store → Session → Prop :=
  λ st x, ∃ e, e ∈ events st ∧ event_pk e = session_events x ∧ event_slug e = s.
Definition attendee_user_is (u : pk) : Attendee → Prop :=
  λ a, attendee_user a = u.
Definition attendee_events_is (e : Event) : Attendee → Prop :=
  λ a, attendee_events a = event_pk e.

#[global] Instance slug_is_dec s e : Decision (slug_is s e).
Proof. unfold slug_is. apply _. Defined.
#[global] Instance event_date__gt_dec t e : Decision (event_date__gt t e).
Proof. unfold event_date__gt. apply _. Defined.
#[global] Instance session_slug_is_dec s x : Decision (session_slug_is s x).
Proof. unfold session_slug_is. apply _. Defined.
#[global] Instance status_is_dec s x : Decision (status_is s x).
Proof. unfold status_is. apply _. Defined.
#[global] Instance events__slug_dec s st x : Decision (events__slug s st x).
Proof.
  unfold events__slug.
  refine (cast_if (decide (Exists
    (λ e, event_pk e = session_events x ∧ event_slug e = s) (events st))));
    rewrite Exists_exists in *; naive_solver.
Defined.
#[global] Instance attendee_user_is_dec u a : Decision (attendee_user_is u a).
Proof. unfold attendee_user_is. apply _. Defined.
#[global] Instance attendee_events_is_dec e a :
  Decision (attendee_events_is e a).
Proof. unfold attendee_events_is. apply _. Defined.

(** The reverse manager [event.attendees]. *)
Definition event_attendees (e : Event) : QuerySet Attendee :=
  qs_filter (attendee_events_is e) Attendee_objects.

(** A fresh primary key.  The database draws it from a sequence, which may
    skip keys; the model takes one more than the largest in the table, and
    nothing below relies on more than its freshness. *)
Definition next_pk {A} (key : A → pk) (rows : list A) : pk :=
  1 + foldr (λ r m, Z.max (key r) m) 0 rows.

(** The row [Attendee(user=id, events=e)] as the table stores it, and the
    store with it. *)
Definition signup_row (st : Store) (id : pk) (e : Event) : Attendee :=
  {| attendee_pk := next_pk attendee_pk (attendees st);
     attendee_user := id; attendee_events := event_pk e |}.

Definition with_signup (st : Store) (id : pk) (e : Event) : Store :=
  {| events := events st; sessions := sessions st;
     attendees := attendees st ++ [signup_row st id e] |}.

(** [Attendee(user=u, events=e).save()]; [AnonymousUser] cannot be
    assigned to the foreign key. *)
Definition Attendee_save (u : User) (e : Event) : ORM unit :=
  match u with
  | AnonymousUser => raise TypeError
  | AuthUser id => execute (SQL_INSERT attendee_table) (λ st, with_signup st id e)
  end.

(** ** Requests and responses *)

(** The methods of the model.  [HEAD] and [OPTIONS] are outside it: DRF
    answers [OPTIONS] itself, with a description of the view, and the class
    views answer [HEAD] like [GET]; what is said below of every request is
    said of the requests with one of these five methods. *)
Inductive Method := GET | POST | PUT | PATCH | DELETE.

#[global] Instance Method_eq_dec : EqDecision Method.
Proof. solve_decision. Defined.

Definition method_name (m : Method) : string :=
  match m with
  | GET => "GET"
  | POST => "POST"
  | PUT => "PUT"
  | PATCH => "PATCH"
  | DELETE => "DELETE"
  end.

(** DRF's [SAFE_METHODS] are GET, HEAD and OPTIONS; of the methods of the
    model, GET. *)
Definition SAFE_METHODS : list Method := [GET].

(** The query string, parsed: the terms of [ordering=] (a leading minus is
    the flag [true]), the words of [search=], and the other parameters. *)
Record QueryParams := {
  ordering_param : list (bool * string);
  search_param : list string;
  filter_params : list (string * string)
}.

Definition no_params : QueryParams :=
  {| ordering_param := []; search_param := []; filter_params := [] |}.

(** [www_authenticate] tells whether the first configured authentication
    class supplies a [WWW-Authenticate] header (the project settings are not
    among the sources). *)
Record Request := {
  method : Method;
  user : User;
  query_params : QueryParams;
  data : Dict;
  www_authenticate : bool
}.

Inductive Body :=
| NoBody
| Object (d : Dict)
| Array (l : list Dict)
| ServerErrorPage.

Record Response := {
  resp_data : Body;
  resp_status : Z
}.

(** What a view hands back to the server: the response, the store as the
    request left it, and the statements issued. *)
Definition Served : Type := Response * Store * list Query.

Definition response_of (s : Served) : Response := s.1.1.
Definition store_of (s : Served) : Store := s.1.2.
Definition queries_of (s : Served) : list Query := s.2.

(** A routed view: the request, the reading of the clock while the request
    is handled, the store. *)
Definition View : Type := Request → datetime → Store → Served.

(** ** Django REST framework *)

(** A permission class; [BasePermission] answers [True] to both. *)
Record Permission (A : Type) := {
  has_permission : Request → bool;
  has_object_permission : Request → A → bool
}.
Arguments has_permission {A} p req.
Arguments has_object_permission {A} p req obj.

Module permissions.
Definition IsAuthenticated {A} : Permission A :=
  {| has_permission := λ req, is_authenticated (user req);
     has_object_permission := λ _ _, true |}.
Definition IsAuthenticatedOrReadOnly {A} : Permission A :=
  {| has_permission := λ req,
       bool_decide (method req ∈ SAFE_METHODS) || is_authenticated (user req);
     has_object_permission := λ _ _, true |}.
End permissions.

(** Modelled from the spec: [events/permissions.py] is not among the
    sources.  Section 4.5: "Event-owner-or-read-only: allow unsafe methods
    only if [entity.hosted_by == requester]", "Proposer-or-read-only: allow
    unsafe methods only if [entity.proposed_by == requester]", both allowing
    every safe method; the checks are "evaluated ... against the target
    entity", that is, they are object permissions. *)
Module custom_permissions.
Definition IsOwnerOrReadOnly : Permission Event :=
  {| has_permission := λ _, true;
     has_object_permission := λ req obj,
       bool_decide (method req ∈ SAFE_METHODS)
       || user_is (hosted_by obj) (user req) |}.
Definition IsProposerOrReadOnly : Permission Session :=
  {| has_permission := λ _, true;
     has_object_permission := λ req obj,
       bool_decide (method req ∈ SAFE_METHODS)
       || user_is (proposed_by obj) (user req) |}.
End custom_permissions.

(** [APIView.permission_denied]: an unauthenticated request is told to
    authenticate, an authenticated one is refused. *)
Definition permission_denied {A} (req : Request) : ORM A :=
  if is_authenticated (user req)
  then raise (API exceptions.PermissionDenied)
  else raise (API exceptions.NotAuthenticated).

Definition check_permissions {A} (perms : list (Permission A)) (req : Request)
    : ORM unit :=
  if forallb (λ p, has_permission p req) perms then mret ()
  else permission_denied req.

Definition check_object_permissions {A} (perms : list (Permission A))
    (req : Request) (obj : A) : ORM unit :=
  if forallb (λ p, has_object_permission p req obj) perms then mret ()
  else permission_denied req.

(** [rest_framework.generics.get_object_or_404]: [DoesNotExist] becomes
    [Http404]; any other exception of the lookup passes through. *)
Definition get_object_or_404 {A} (qs : QuerySet A) : ORM A :=
  try_except (qs_get qs) (λ e,
    match e with
    | DoesNotExist => raise Http404
    | _ => raise e
    end).

Definition error_response (e : APIExc) (status : Z) : Response :=
  {| resp_data := Object {[ "detail" := JStr (detail e) ]};
     resp_status := status |}.

(** [APIView.handle_exception] with DRF's default [exception_handler]: an
    API exception is answered with its [status_code] ([NotAuthenticated]
    with 403 when no [WWW-Authenticate] header can be sent), [Http404] as
    [NotFound], a validation error with its dictionary of errors and 400;
    any other exception is not handled and Django answers 500. *)
Definition handle_exception (req : Request) (e : Exc) : Response :=
  match e with
  | API x =>
      match exc_class x with
      | NotAuthenticated =>
          if www_authenticate req then error_response x (status_code x)
          else error_response x status.HTTP_403_FORBIDDEN
      | _ => error_response x (status_code x)
      end
  | Http404 => error_response exceptions.NotFound
                 (status_code exceptions.NotFound)
  | Invalid errors => {| resp_data := Object errors;
                         resp_status := status.HTTP_400_BAD_REQUEST |}
  | _ => {| resp_data := ServerErrorPage;
            resp_status := status.HTTP_500_INTERNAL_SERVER_ERROR |}
  end.

(** The outcome of a handler as the response of the view: what it returns,
    or what [handle_exception] makes of what it raises. *)
Definition serve (req : Request) (r : Result Response * Store * list Query)
    : Served :=
  match r with
  | (Ok resp, st', q) => (resp, st', q)
  | (Raise e, st', q) => (handle_exception req e, st', q)
  end.

(** [APIView.dispatch]: the permission classes, then the handler of the
    method ([MethodNotAllowed] when the view has none), and every exception
    turned into a response. *)
Definition dispatch {A} (perms : list (Permission A))
    (handlers : Method → option (ORM Response)) (req : Request)
    : Store → Served := λ st,
  serve req
    ((check_permissions perms req;;
      match handlers (method req) with
      | Some handler => handler
      | None => raise (API (exceptions.MethodNotAllowed
                              (method_name (method req))))
      end) st).

(** [@api_view([m])]: a view with one handler, for method [m]. *)
Definition api_view (m : Method) (handler : ORM Response)
    : Method → option (ORM Response) :=
  λ m', if decide (m' = m) then Some handler else None.

(** [.filter(user=request.user)] on attendee rows; the ORM refuses
    [AnonymousUser] as the value of a foreign key with a [TypeError]. *)
Definition filter_user (u : User) (qs : QuerySet Attendee)
    : ORM (QuerySet Attendee) :=
  match u with
  | AuthUser id => mret (qs_filter (attendee_user_is id) qs)
  | AnonymousUser => raise TypeError
  end.

(** *** Filter backends *)

(** The value of a column, for ordering and searching. *)
Inductive Value :=
| VInt (n : Z)
| VStr (s : string).

(** A model exposes its columns by name. *)
Class Model (A : Type) := field : string → A → option Value.

#[global] Instance Event_model : Model Event := λ name e,
  if String.eqb name "title" then Some (VStr (event_title e))
  else if String.eqb name "description" then Some (VStr (event_description e))
  else if String.eqb name "slug" then Some (VStr (event_slug e))
  else if String.eqb name "event_date" then Some (VInt (event_date e))
  else if String.eqb name "total_guest" then Some (VInt (total_guest e))
  else if String.eqb name "read_time" then Some (VInt (read_time e))
  else None.

#[global] Instance Session_model : Model Session := λ name x,
  if String.eqb name "title" then Some (VStr (session_title x))
  else if String.eqb name "description" then Some (VStr (session_description x))
  else if String.eqb name "slug" then Some (VStr (session_slug x))
  else if String.eqb name "status" then Some (VStr (session_status x))
  else if String.eqb name "session_type" then Some (VStr (session_type x))
  else None.

Definition value_compare (a b : option Value) : comparison :=
  match a, b with
  | Some (VInt m), Some (VInt n) => Z.compare m n
  | Some (VStr s), Some (VStr t) => String.compare s t
  | _, _ => Eq
  end.

(** [QuerySet.order_by]: the terms in turn, a term with the flag [true]
    descending. *)
Fixpoint row_compare `{Model A} (terms : list (bool * string)) (a b : A)
    : comparison :=
  match terms with
  | [] => Eq
  | (desc, name) :: rest =>
      match value_compare (field name a) (field name b) with
      | Eq => row_compare rest a b
      | c => if desc then CompOpp c else c
      end
  end.

Definition row_le `{Model A} (terms : list (bool * string)) : relation A :=
  λ a b, row_compare terms a b ≠ Gt.

#[global] Instance row_le_dec `{Model A} terms (a b : A) :
  Decision (row_le terms a b).
Proof. unfold row_le. apply _. Defined.

Definition qs_order_by `{Model A} (terms : list (bool * string))
    (qs : QuerySet A) : QuerySet A :=
  {| qs_table := qs_table qs;
     qs_rows := λ st, merge_sort (row_le terms) (qs_rows qs st);
     qs_prefetch := qs_prefetch qs |}.

Definition lower (c : ascii) : ascii :=
  let n := nat_of_ascii c in
  if (Nat.leb 65 n && Nat.leb n 90)%bool then ascii_of_nat (n + 32) else c.

Fixpoint lowercase (s : string) : string :=
  match s with
  | EmptyString => EmptyString
  | String c s' => String (lower c) (lowercase s')
  end.

Fixpoint contains (needle hay : string) : bool :=
  String.prefix needle hay ||
  match hay with
  | EmptyString => false
  | String _ hay' => contains needle hay'
  end.

(** The lookup [field__icontains=term]. *)
Definition icontains `{Model A} (name term : string) (a : A) : bool :=
  match field name a with
  | Some (VStr s) => contains (lowercase term) (lowercase s)
  | _ => false
  end.

Module filters.
(** [OrderingFilter]: the terms of [ordering=] that name a field of
    [ordering_fields], or the view's default [ordering] when none is
    left. *)
Definition get_ordering (ordering_fields : list string)
    (ordering : list (bool * string)) (req : Request) : list (bool * string) :=
  match filter (λ t, t.2 ∈ ordering_fields)
          (ordering_param (query_params req)) with
  | [] => ordering
  | valid => valid
  end.

Definition OrderingFilter `{Model A} (ordering_fields : list string)
    (ordering : list (bool * string)) (req : Request) (qs : QuerySet A)
    : QuerySet A :=
  match get_ordering ordering_fields ordering req with
  | [] => qs
  | terms => qs_order_by terms qs
  end.

(** [SearchFilter]: every word of [search=] occurs, whatever the case, in
    one of [search_fields]. *)
Definition search_matches `{Model A} (search_fields terms : list string)
    : A → Prop :=
  λ a, forallb (λ term,
           existsb (λ name, icontains name term a) search_fields) terms = true.

#[global] Instance search_matches_dec `{Model A} fs ts (a : A) :
  Decision (search_matches fs ts a).
Proof. unfold search_matches. apply _. Defined.

Definition SearchFilter `{Model A} (search_fields : list string)
    (req : Request) (qs : QuerySet A) : QuerySet A :=
  match search_fields, search_param (query_params req) with
  | [], _ | _, [] => qs
  | _, terms => qs_filter (search_matches search_fields terms) qs
  end.
End filters.

(** *** The modules of the application that are not among the sources *)

(** [serializers.py] and [filter.py], as parameters.  A serializer class is
    used in three ways: to render a row ([.data]), to build the row of a
    [create] from the request body, and to build the updated row of an
    [update] ([partial] for PATCH); the last two answer [None] when
    [is_valid] rejects the body.  Whatever the serializer says, the view
    overrides the columns it passes to [save], and a saved row keeps its
    primary key.  [EventFilter] maps the query parameters to a row filter,
    [None] when it rejects them.  The [_errors] are the dictionaries of
    field errors ([serializer.errors], [filterset.errors]) of what was
    rejected. *)
Class Project := {
  EventListSerializer : Event → Dict;
  EventRetrieveSerializer : Event → Dict;
  EventCreateUpdateSerializer : Event → Dict;
  EventCreateUpdateSerializer_create : Store → Dict → option Event;
  EventCreateUpdateSerializer_update :
    Store → Event → bool → Dict → option Event;
  SessionListSerializer : Session → Dict;
  SessionRetrieveCreateUpdateSerializer : Session → Dict;
  SessionRetrieveCreateUpdateSerializer_create :
    Store → Dict → option Session;
  SessionRetrieveCreateUpdateSerializer_update :
    Store → Session → bool → Dict → option Session;
  EventFilter : list (string * string) → option (Event → bool);
  EventCreateUpdateSerializer_errors : Store → Dict → Dict;
  SessionRetrieveCreateUpdateSerializer_errors : Store → Dict → Dict;
  EventFilter_errors : list (string * string) → Dict
}.

(** [serializer.is_valid(raise_exception=True)]. *)
Definition is_valid {A} (validate : Store → option A) (errors : Store → Dict)
    : ORM A := λ st,
  match validate st with
  | Some a => (Ok a, st, [])
  | None => (Raise (Invalid (errors st)), st, [])
  end.

Definition event_filter_matches (f : Event → bool) : Event → Prop :=
  λ e, f e = true.

#[global] Instance event_filter_matches_dec f e :
  Decision (event_filter_matches f e).
Proof. unfold event_filter_matches. apply _. Defined.

(** [DjangoFilterBackend] with [filterset_class = filter.EventFilter]. *)
Definition DjangoFilterBackend {project : Project} (req : Request)
    (qs : QuerySet Event) : ORM (QuerySet Event) :=
  match EventFilter (filter_params (query_params req)) with
  | Some f => mret (qs_filter (event_filter_matches f) qs)
  | None => raise (Invalid (EventFilter_errors
                              (filter_params (query_params req))))
  end.

(** *** Writes *)

Definition set_event_pk (k : pk) (e : Event) : Event :=
  {| event_pk := k; event_title := event_title e;
     event_description := event_description e; event_slug := event_slug e;
     event_date := event_date e; hosted_by := hosted_by e;
     total_guest := total_guest e; read_time := read_time e |}.

Definition set_hosted_by (u : pk) (e : Event) : Event :=
  {| event_pk := event_pk e; event_title := event_title e;
     event_description := event_description e; event_slug := event_slug e;
     event_date := event_date e; hosted_by := u;
     total_guest := total_guest e; read_time := read_time e |}.

Definition set_session_pk (k : pk) (x : Session) : Session :=
  {| session_pk := k; session_title := session_title x;
     session_description := session_description x;
     session_slug := session_slug x; session_status := session_status x;
     session_type := session_type x; proposed_by := proposed_by x;
     session_events := session_events x |}.

Definition set_proposer_and_event (u : pk) (e : Event) (x : Session) : Session :=
  {| session_pk := session_pk x; session_title := session_title x;
     session_description := session_description x;
     session_slug := session_slug x; session_status := session_status x;
     session_type := session_type x; proposed_by := u;
     session_events := event_pk e |}.

(** The store with one more row, with a row replaced (the one of the same
    primary key), and without a row.  The foreign keys of [Session] and
    [Attendee] to [Event] are taken to cascade, Django's usual [on_delete]. *)
Definition with_new_event (st : Store) (row : Event) : Store :=
  {| events := events st ++ [row]; sessions := sessions st;
     attendees := attendees st |}.

Definition with_session (st : Store) (row : Session) : Store :=
  {| events := events st; sessions := sessions st ++ [row];
     attendees := attendees st |}.

Definition with_event (st : Store) (row : Event) : Store :=
  {| events := (λ r, if decide (event_pk r = event_pk row) then row else r)
                 <$> events st;
     sessions := sessions st; attendees := attendees st |}.

Definition with_changed_session (st : Store) (row : Session) : Store :=
  {| events := events st;
     sessions := (λ r, if decide (session_pk r = session_pk row) then row else r)
                   <$> sessions st;
     attendees := attendees st |}.

Definition without_event (st : Store) (e : Event) : Store :=
  {| events := filter (λ r, event_pk r ≠ event_pk e) (events st);
     sessions := filter (λ x, session_events x ≠ event_pk e) (sessions st);
     attendees := filter (λ a, attendee_events a ≠ event_pk e) (attendees st) |}.

Definition without_session (st : Store) (x : Session) : Store :=
  {| events := events st;
     sessions := filter (λ r, session_pk r ≠ session_pk x) (sessions st);
     attendees := attendees st |}.

(** [INSERT]: the row gets a fresh primary key. *)
Definition Event_insert (e : Event) : ORM Event := λ st,
  let row := set_event_pk (next_pk event_pk (events st)) e in
  (Ok row, with_new_event st row, [SQL_INSERT event_table]).

Definition Session_insert (x : Session) : ORM Session := λ st,
  let row := set_session_pk (next_pk session_pk (sessions st)) x in
  (Ok row, with_session st row, [SQL_INSERT session_table]).

(** [UPDATE ... WHERE id = pk]. *)
Definition Event_update (e : Event) : ORM unit :=
  execute (SQL_UPDATE event_table) (λ st, with_event st e).

Definition Session_update (x : Session) : ORM unit :=
  execute (SQL_UPDATE session_table) (λ st, with_changed_session st x).

(** [instance.delete()]. *)
Definition Event_delete (e : Event) : ORM unit :=
  execute (SQL_DELETE event_table) (λ st, without_event st e).

Definition Session_delete (x : Session) : ORM unit :=
  execute (SQL_DELETE session_table) (λ st, without_session st x).

(** *** Generic views *)

(** [GenericAPIView.get_object]: the row of the queryset the URL names, 404
    without one, then the object permissions.  The detail views configure
    no filter backend. *)
Definition get_object {A} (perms : list (Permission A)) (qs : QuerySet A)
    (lookup : A → Prop) `{∀ a, Decision (lookup a)}
    (req : Request) : ORM A :=
  obj ← get_object_or_404 (qs_filter lookup qs);
  check_object_permissions perms req obj;;
  mret obj.

Definition Response_ (d : Body) (s : Z) : Response :=
  {| resp_data := d; resp_status := s |}.

(** [ListModelMixin.list], without pagination (DRF's default). *)
Definition list_rows {A} (serializer : A → Dict) (qs : QuerySet A)
    : ORM Response :=
  rows ← qs_fetch qs;
  mret (Response_ (Array (serializer <$> rows)) status.HTTP_200_OK).

(** ** [views.py] *)

(** [sign_up_to_event]: "Let users to signup to an event." *)
Definition sign_up_to_event (request : Request) (slug : string) : ORM Response :=
  event ← get_object_or_404 (qs_filter (slug_is slug) Event_objects);
  host ← related_user (hosted_by event);
  raise_if (user_is host (user request))
    (API (exceptions.APIException
            ("You are the owner of the " +:+ event_title event +:+ ".")
            (CodeInt status.HTTP_400_BAD_REQUEST)));;
  mine ← filter_user (user request) (event_attendees event);
  first ← qs_first mine;
  raise_if (bool_decide (is_Some first))
    (API (exceptions.APIException
            ("You already attended the " +:+ event_title event +:+ ".")
            (CodeInt status.HTTP_400_BAD_REQUEST)));;
  Attendee_save (user request) event;;
  mret {| resp_data := NoBody; resp_status := status.HTTP_201_CREATED |}.

(** The routed view: [@api_view(["POST"])] and
    [@permission_classes([permissions.IsAuthenticated])]. *)
Definition sign_up_to_event_view (slug : string) : View := λ request _,
  dispatch [permissions.IsAuthenticated (A := Event)]
    (api_view POST (sign_up_to_event request slug)) request.

Module EventListCreateAPIView.
(** "Event API view for create and list."

    [queryset] is a class attribute: its expression, [timezone.now()]
    included, is evaluated once, when the class body runs as the module
    is imported.  [import_time] is the reading of the clock then.  The
    queryset itself stays lazy and is run against the store on every
    request. *)
Definition queryset (import_time : datetime) : QuerySet Event :=
  qs_filter (event_date__gt import_time)
    (prefetch_related [tags_table]
       (select_related ["hosted_by"] Event_objects)).

Definition permission_classes : list (Permission Event) :=
  [permissions.IsAuthenticatedOrReadOnly].

Definition search_fields := ["title"; "description"].
Definition ordering := [(false, "event_date")].
Definition ordering_fields := ["total_guest"; "event_date"; "read_time"].

(** [filter_backends = (DjangoFilterBackend, OrderingFilter, SearchFilter)]. *)
Definition filter_queryset {project : Project} (request : Request)
    (qs : QuerySet Event) : ORM (QuerySet Event) :=
  qs ← DjangoFilterBackend request qs;
  mret (filters.SearchFilter search_fields request
          (filters.OrderingFilter ordering_fields ordering request qs)).

(** [get_serializer_class]: [EventCreateUpdateSerializer] for POST,
    [EventListSerializer] otherwise; [list] is the GET handler. *)
Definition list {project : Project} (import_time : datetime) (request : Request)
    : ORM Response :=
  qs ← filter_queryset request (queryset import_time);
  list_rows EventListSerializer qs.

(** [perform_create]: [serializer.save(hosted_by=self.request.user)]. *)
Definition perform_create (request : Request) (validated : Event)
    : ORM Event :=
  match user request with
  | AuthUser id => Event_insert (set_hosted_by id validated)
  | AnonymousUser => raise TypeError
  end.

Definition create {project : Project} (request : Request) : ORM Response :=
  validated ← is_valid
    (λ st, EventCreateUpdateSerializer_create st (data request))
    (λ st, EventCreateUpdateSerializer_errors st (data request));
  row ← perform_create request validated;
  mret (Response_ (Object (EventCreateUpdateSerializer row))
          status.HTTP_201_CREATED).

Definition view {project : Project} (import_time : datetime) : View := λ request _,
  dispatch permission_classes
    (λ m, match m with
          | GET => Some (list import_time request)
          | POST => Some (create request)
          | _ => None
          end) request.
End EventListCreateAPIView.

Module EventRetrieveUpdateDestroyAPIView.
(** "Event API view for retrieve, update, and delete." *)
Definition queryset : QuerySet Event :=
  prefetch_related [organizers_table; tags_table]
    (select_related ["hosted_by"] Event_objects).

Definition permission_classes : list (Permission Event) :=
  [permissions.IsAuthenticatedOrReadOnly;
   custom_permissions.IsOwnerOrReadOnly].

(** [retrieve]: "Event retrieve endpoint."  [now] is [timezone.now()]. *)
Definition retrieve {project : Project} (request : Request) (slug : string)
    (now : datetime) : ORM Response :=
  event ← try_except (qs_get (qs_filter (slug_is slug) queryset))
            (λ _, raise (API exceptions.NotFound));
  let data := EventRetrieveSerializer event in
  signed ← ((if is_authenticated (user request)
             then mine ← filter_user (user request) (event_attendees event);
                  qs_bool mine
             else mret false) : ORM bool);
  let data :=
    if (signed : bool) then dict_update data [("has_sign_up", JBool true)]
    else dict_update data [("has_sign_up", JBool false)] in
  let data :=
    dict_update data
      [("event_is_open", JBool (bool_decide (now < event_date event)));
       ("is_authenticated", JBool (is_authenticated (user request)))] in
  mret (Response_ (Object data) status.HTTP_200_OK).

(** [UpdateModelMixin.update]; [partial] for PATCH. *)
Definition update {project : Project} (partial : bool) (request : Request)
    (slug : string) : ORM Response :=
  instance ← get_object permission_classes queryset (slug_is slug) request;
  validated ← is_valid
    (λ st, EventCreateUpdateSerializer_update st instance partial
             (data request))
    (λ st, EventCreateUpdateSerializer_errors st (data request));
  let row := set_event_pk (event_pk instance) validated in
  Event_update row;;
  mret (Response_ (Object (EventCreateUpdateSerializer row))
          status.HTTP_200_OK).

(** [DestroyModelMixin.destroy]. *)
Definition destroy (request : Request) (slug : string) : ORM Response :=
  instance ← get_object permission_classes queryset (slug_is slug) request;
  Event_delete instance;;
  mret (Response_ NoBody status.HTTP_204_NO_CONTENT).

Definition view {project : Project} (slug : string) : View := λ request now,
  dispatch permission_classes
    (λ m, match m with
          | GET => Some (retrieve request slug now)
          | PUT => Some (update false request slug)
          | PATCH => Some (update true request slug)
          | DELETE => Some (destroy request slug)
          | POST => None
          end) request.
End EventRetrieveUpdateDestroyAPIView.

(** The three session surfaces share their shape; [views.py] writes the
    same queryset with a different status literal in each class. *)
Definition sessions_with_status (status_literal event_slug : string)
    : QuerySet Session :=
  qs_filter_related (events__slug event_slug)
    (qs_filter (status_is status_literal) Session_objects).

Definition session_search_fields := ["title"; "description"].
Definition session_ordering := [(false, "title")].
Definition session_ordering_fields := ["title"; "session_type"].

(** [filter_backends = (OrderingFilter, SearchFilter)]. *)
Definition session_filter_queryset (request : Request) (qs : QuerySet Session)
    : QuerySet Session :=
  filters.SearchFilter session_search_fields request
    (filters.OrderingFilter session_ordering_fields session_ordering request qs).

Module ProposerListCreateAPIView.
(** "Proposer API view for create and list." *)
Definition permission_classes : list (Permission Session) :=
  [permissions.IsAuthenticatedOrReadOnly].

Definition get_queryset (event_slug : string) : QuerySet Session :=
  sessions_with_status "Draft" event_slug.

Definition list {project : Project} (request : Request) (event_slug : string)
    : ORM Response :=
  list_rows SessionListSerializer
    (session_filter_queryset request (get_queryset event_slug)).

(** [perform_create]: the parent event or 404, then
    [serializer.save(proposed_by=self.request.user, events=event)]. *)
Definition perform_create (request : Request) (event_slug : string)
    (validated : Session) : ORM Session :=
  event ← get_object_or_404 (qs_filter (slug_is event_slug) Event_objects);
  match user request with
  | AuthUser id => Session_insert (set_proposer_and_event id event validated)
  | AnonymousUser => raise TypeError
  end.

(** [CreateModelMixin.create]. *)
Definition create {project : Project} (request : Request) (event_slug : string)
    : ORM Response :=
  validated ← is_valid
    (λ st, SessionRetrieveCreateUpdateSerializer_create st (data request))
    (λ st, SessionRetrieveCreateUpdateSerializer_errors st (data request));
  row ← perform_create request event_slug validated;
  mret (Response_ (Object (SessionRetrieveCreateUpdateSerializer row))
          status.HTTP_201_CREATED).

Definition view {project : Project} (event_slug : string) : View := λ request _,
  dispatch permission_classes
    (λ m, match m with
          | GET => Some (list request event_slug)
          | POST => Some (create request event_slug)
          | _ => None
          end) request.
End ProposerListCreateAPIView.

(** [RetrieveModelMixin.retrieve] on sessions, [lookup_field = "slug"]. *)
Definition session_retrieve {project : Project} (perms : list (Permission Session))
    (qs : QuerySet Session) (request : Request) (slug : string)
    : ORM Response :=
  instance ← get_object perms qs (session_slug_is slug) request;
  mret (Response_ (Object (SessionRetrieveCreateUpdateSerializer instance))
          status.HTTP_200_OK).

Module ProposerRetrieveUpdateDestroyAPIView.
(** "Proposer API view for retrieve, update, and delete." *)
Definition permission_classes : list (Permission Session) :=
  [permissions.IsAuthenticatedOrReadOnly;
   custom_permissions.IsProposerOrReadOnly].

Definition get_queryset (event_slug : string) : QuerySet Session :=
  sessions_with_status "Draft" event_slug.

Definition retrieve {project : Project} (request : Request) (event_slug slug : string)
    : ORM Response :=
  session_retrieve permission_classes (get_queryset event_slug) request slug.

Definition update {project : Project} (partial : bool) (request : Request)
    (event_slug slug : string) : ORM Response :=
  instance ← get_object permission_classes (get_queryset event_slug)
               (session_slug_is slug) request;
  validated ← is_valid
    (λ st, SessionRetrieveCreateUpdateSerializer_update st instance partial
             (data request))
    (λ st, SessionRetrieveCreateUpdateSerializer_errors st (data request));
  let row := set_session_pk (session_pk instance) validated in
  Session_update row;;
  mret (Response_ (Object (SessionRetrieveCreateUpdateSerializer row))
          status.HTTP_200_OK).

Definition destroy (request : Request) (event_slug slug : string)
    : ORM Response :=
  instance ← get_object permission_classes (get_queryset event_slug)
               (session_slug_is slug) request;
  Session_delete instance;;
  mret (Response_ NoBody status.HTTP_204_NO_CONTENT).

Definition view {project : Project} (event_slug slug : string) : View := λ request _,
  dispatch permission_classes
    (λ m, match m with
          | GET => Some (retrieve request event_slug slug)
          | PUT => Some (update false request event_slug slug)
          | PATCH => Some (update true request event_slug slug)
          | DELETE => Some (destroy request event_slug slug)
          | POST => None
          end) request.
End ProposerRetrieveUpdateDestroyAPIView.

Module SessionListAPIView.
(** "Session API view for accepted session list." *)
Definition get_queryset (event_slug : string) : QuerySet Session :=
  sessions_with_status "Accepted" event_slug.

Definition list {project : Project} (request : Request) (event_slug : string)
    : ORM Response :=
  list_rows SessionListSerializer
    (session_filter_queryset request (get_queryset event_slug)).

Definition view {project : Project} (event_slug : string) : View := λ request _,
  dispatch (A := Session) []
    (λ m, match m with
          | GET => Some (list request event_slug)
          | _ => None
          end) request.
End SessionListAPIView.

Module SessionRetrieveAPIView.
(** "Session API view for accepted session retrieve." *)
Definition get_queryset (event_slug : string) : QuerySet Session :=
  sessions_with_status "Accepted" event_slug.

Definition retrieve {project : Project} (request : Request) (event_slug slug : string)
    : ORM Response :=
  session_retrieve [] (get_queryset event_slug) request slug.

Definition view {project : Project} (event_slug slug : string) : View := λ request _,
  dispatch (A := Session) []
    (λ m, match m with
          | GET => Some (retrieve request event_slug slug)
          | _ => None
          end) request.
End SessionRetrieveAPIView.

Module DeniedSessionListAPIView.
(** "Session API view for denied session list." *)
Definition get_queryset (event_slug : string) : QuerySet Session :=
  sessions_with_status "Denied" event_slug.

Definition list {project : Project} (request : Request) (event_slug : string)
    : ORM Response :=
  list_rows SessionListSerializer
    (session_filter_queryset request (get_queryset event_slug)).

Definition view {project : Project} (event_slug : string) : View := λ request _,
  dispatch (A := Session) []
    (λ m, match m with
          | GET => Some (list request event_slug)
          | _ => None
          end) request.
End DeniedSessionListAPIView.

Module DeniedSessionRetrieveAPIView.
(** "Session API view for denied session retrieve." *)
Definition get_queryset (event_slug : string) : QuerySet Session :=
  sessions_with_status "Denied" event_slug.

Definition retrieve {project : Project} (request : Request) (event_slug slug : string)
    : ORM Response :=
  session_retrieve [] (get_queryset event_slug) request slug.

Definition view {project : Project} (event_slug slug : string) : View := λ request _,
  dispatch (A := Session) []
    (λ m, match m with
          | GET => Some (retrieve request event_slug slug)
          | _ => None
          end) request.
End DeniedSessionRetrieveAPIView.

(** ** [views.py]: the two function views on an event *)

(** [serializers.py], continued: the serializers of [attendee_list] and of
    [speakers_list], as parameters like those of [Project]. *)
Class ProjectLists := {
  AttendeeSerializer : Attendee → Dict;
  SpeakerSerializer : Session → Dict
}.

Definition session_events_is (e : Event) : Session → Prop :=
  λ x, session_events x = event_pk e.

#[global] Instance session_events_is_dec e x :
  Decision (session_events_is e x).
Proof. unfold session_events_is. apply _. Defined.

(** The reverse manager [event.sessions]. *)
Definition event_sessions (e : Event) : QuerySet Session :=
  qs_filter (session_events_is e) Session_objects.

(** [attendee_list]: "Get list of attendee in the event." *)
Definition attendee_list {lists : ProjectLists} (request : Request)
    (event_slug : string) : ORM Response :=
  event ← get_object_or_404 (qs_filter (slug_is event_slug) Event_objects);
  list_rows AttendeeSerializer (event_attendees event).

(** [speakers_list]: "Get list of speaker in the event." *)
Definition speakers_list {lists : ProjectLists} (request : Request)
    (event_slug : string) : ORM Response :=
  event ← get_object_or_404 (qs_filter (slug_is event_slug) Event_objects);
  list_rows SpeakerSerializer
    (qs_filter (status_is "Accepted") (event_sessions event)).

(** Both are routed with [@api_view(["GET"])] and no permission class of
    their own (DRF's default lets every request through). *)
Definition attendee_list_view {lists : ProjectLists} (event_slug : string)
    : View := λ request _,
  dispatch (A := Event) []
    (api_view GET (attendee_list request event_slug)) request.

Definition speakers_list_view {lists : ProjectLists} (event_slug : string)
    : View := λ request _,
  dispatch (A := Event) []
    (api_view GET (speakers_list request event_slug)) request.

(** * The vocabulary of the properties *)

(** ** Constraints of the schema *)

(** Modelled from the spec: the constraint of [events/models.py], which is
    not among the sources, on event slugs (section 3: "slug (unique,
    URL-safe identifier)"). *)
Definition event_slugs_unique (st : Store) : Prop :=
  NoDup (event_slug <$> events st).

(** Modelled from the spec: the constraint of [events/models.py] on session
    slugs (section 3: "slug (unique within event)"). *)
Definition session_slugs_unique (st : Store) : Prop :=
  Forall (λ x, Forall (λ y,
    session_events x = session_events y → session_slug x = session_slug y →
    x = y) (sessions st)) (sessions st).

(** Modelled from the spec: the choices of [Session.status] in
    [events/models.py], which is not among the sources (section 3: "status
    (enumerated: Draft | Accepted | Denied)"). *)
Definition SESSION_STATUS : list string := ["Draft"; "Accepted"; "Denied"].

(** Every stored session has one of the three statuses. *)
Definition session_status_valid (st : Store) : Prop :=
  Forall (λ x, session_status x ∈ SESSION_STATUS) (sessions st).

(** ** Outcomes of the handlers *)

(** The response to [NotFound] and to [Http404]. *)
Definition not_found_response : Response :=
  error_response exceptions.NotFound status.HTTP_404_NOT_FOUND.

(** The two exceptions [sign_up_to_event] raises. *)
Definition owner_error (e : Event) : APIExc :=
  exceptions.APIException ("You are the owner of the " +:+ event_title e +:+ ".")
    (CodeInt status.HTTP_400_BAD_REQUEST).

Definition duplicate_error (e : Event) : APIExc :=
  exceptions.APIException ("You already attended the " +:+ event_title e +:+ ".")
    (CodeInt status.HTTP_400_BAD_REQUEST).

(** The rows of [event.attendees.filter(user=u)]. *)
Definition signups (st : Store) (u : pk) (e : Event) : list Attendee :=
  qs_rows (qs_filter (attendee_user_is u) (event_attendees e)) st.

(** The flag [retrieve] computes before it updates the rendered event. *)
Definition signed_up (st : Store) (u : User) (e : Event) : bool :=
  match u with
  | AuthUser id => bool_decide (signups st id e ≠ [])
  | AnonymousUser => false
  end.

(** The dictionary [retrieve] responds with. *)
Definition retrieve_data {project : Project} (st : Store) (u : User)
    (now : datetime) (e : Event) : Dict :=
  <["is_authenticated" := JBool (is_authenticated u)]>
    (<["event_is_open" := JBool (bool_decide (now < event_date e))]>
       (<["has_sign_up" := JBool (signed_up st u e)]>
          (EventRetrieveSerializer e))).

(** The row [perform_create] saves for the validated data [v]. *)
Definition proposed_row (st : Store) (id : pk) (e : Event) (v : Session)
    : Session :=
  set_session_pk (next_pk session_pk (sessions st))
    (set_proposer_and_event id e v).

(** ** Sample data *)

Module Fixture.
Definition pycon : Event :=
  {| event_pk := 1; event_title := "PyCon 2024";
     event_description := "The Python conference"; event_slug := "pycon-2024";
     event_date := 150; hosted_by := 7; total_guest := 300; read_time := 4 |}.

Definition djangocon : Event :=
  {| event_pk := 2; event_title := "DjangoCon";
     event_description := "The Django conference"; event_slug := "djangocon";
     event_date := 400; hosted_by := 8; total_guest := 120; read_time := 3 |}.

Definition talk (k : pk) (slug status_literal : string) (e : Event) : Session :=
  {| session_pk := k; session_title := slug; session_description := "";
     session_slug := slug; session_status := status_literal;
     session_type := "talk"; proposed_by := 9; session_events := event_pk e |}.

(** User 8 has signed up to PyCon; so has its host, user 7, by a row the
    signup view did not write. *)
Definition store : Store :=
  {| events := [pycon; djangocon];
     sessions := [talk 1 "typing" "Draft" pycon;
                  talk 2 "asyncio" "Accepted" pycon;
                  talk 3 "packaging" "Denied" pycon;
                  talk 4 "orm" "Accepted" djangocon];
     attendees := [{| attendee_pk := 1; attendee_user := 8; attendee_events := 1 |};
                   {| attendee_pk := 2; attendee_user := 7; attendee_events := 1 |}] |}.

(** Two events under one slug, as nothing in [views.py] excludes. *)
Definition twin : Event :=
  {| event_pk := 3; event_title := "PyCon again";
     event_description := ""; event_slug := "pycon-2024";
     event_date := 500; hosted_by := 8; total_guest := 0; read_time := 1 |}.

Definition store_with_twins : Store :=
  {| events := [pycon; djangocon; twin]; sessions := []; attendees := [] |}.

Definition request (m : Method) (u : User) : Request :=
  {| method := m; user := u; query_params := no_params; data := ∅;
     www_authenticate := true |}.

Definition request_with (m : Method) (u : User) (body : Dict) : Request :=
  {| method := m; user := u; query_params := no_params; data := body;
     www_authenticate := true |}.

Definition render_event (e : Event) : Dict :=
  {[ "slug" := JStr (event_slug e); "title" := JStr (event_title e);
     "event_date" := JNum (event_date e) ]}.

Definition render_session (x : Session) : Dict :=
  {[ "slug" := JStr (session_slug x); "status" := JStr (session_status x) ]}.

(** Serializers that render a few columns and accept every body: a body
    creates a draft titled by its ["title"], and updates nothing but the
    title. *)
Definition title_of (d : Dict) (default : string) : string :=
  match d !! "title" with Some (JStr s) => s | _ => default end.

Definition project : Project :=
  {| EventListSerializer := render_event;
     EventRetrieveSerializer := render_event;
     EventCreateUpdateSerializer := render_event;
     EventCreateUpdateSerializer_create := λ _ d,
       Some {| event_pk := 0; event_title := title_of d "";
               event_description := ""; event_slug := title_of d "";
               event_date := 0; hosted_by := 0; total_guest := 0;
               read_time := 0 |};
     EventCreateUpdateSerializer_update := λ _ e _ d,
       Some {| event_pk := event_pk e; event_title := title_of d (event_title e);
               event_description := event_description e;
               event_slug := event_slug e; event_date := event_date e;
               hosted_by := hosted_by e; total_guest := total_guest e;
               read_time := read_time e |};
     SessionListSerializer := render_session;
     SessionRetrieveCreateUpdateSerializer := render_session;
     SessionRetrieveCreateUpdateSerializer_create := λ _ d,
       Some {| session_pk := 0; session_title := title_of d "";
               session_description := ""; session_slug := title_of d "";
               session_status := "Draft"; session_type := "talk";
               proposed_by := 0; session_events := 0 |};
     SessionRetrieveCreateUpdateSerializer_update := λ _ x _ d,
       Some {| session_pk := session_pk x;
               session_title := title_of d (session_title x);
               session_description := session_description x;
               session_slug := session_slug x;
               session_status := session_status x;
               session_type := session_type x; proposed_by := proposed_by x;
               session_events := session_events x |};
     EventFilter := λ _, Some (λ _, true);
     EventCreateUpdateSerializer_errors := λ _ _, ∅;
     SessionRetrieveCreateUpdateSerializer_errors := λ _ _, ∅;
     EventFilter_errors := λ _, ∅ |}.

(** What a serializer with a required [title] says of a body. *)
Definition title_errors (d : Dict) : Dict :=
  match d !! "title" with
  | Some (JStr _) => ∅
  | Some _ => {[ "title" := JArr [JStr "Not a valid string."] ]}
  | None => {[ "title" := JArr [JStr "This field is required."] ]}
  end.

Definition has_title (d : Dict) : bool :=
  match d !! "title" with Some (JStr _) => true | _ => false end.

(** Serializers as [project]'s, that reject a body without a title. *)
Definition strict_project : Project :=
  {| EventListSerializer := render_event;
     EventRetrieveSerializer := render_event;
     EventCreateUpdateSerializer := render_event;
     EventCreateUpdateSerializer_create := λ st d,
       if has_title d
       then @EventCreateUpdateSerializer_create project st d else None;
     EventCreateUpdateSerializer_update := λ st e partial d,
       if has_title d || partial
       then @EventCreateUpdateSerializer_update project st e partial d
       else None;
     SessionListSerializer := render_session;
     SessionRetrieveCreateUpdateSerializer := render_session;
     SessionRetrieveCreateUpdateSerializer_create := λ st d,
       if has_title d
       then @SessionRetrieveCreateUpdateSerializer_create project st d
       else None;
     SessionRetrieveCreateUpdateSerializer_update := λ st x partial d,
       if has_title d || partial
       then @SessionRetrieveCreateUpdateSerializer_update project st x
              partial d
       else None;
     EventFilter := λ _, Some (λ _, true);
     EventCreateUpdateSerializer_errors := λ _ d, title_errors d;
     SessionRetrieveCreateUpdateSerializer_errors := λ _ d, title_errors d;
     EventFilter_errors := λ _, ∅ |}.
End Fixture.
(** ** Further constraints, and what a request may do *)


Definition session_pks_unique (st : Store) : Prop :=
  NoDup (session_pk <$> sessions st).



(** A computation that leaves the store as it found it and issues nothing
    but [SELECT]s. *)
Definition is_select (q : Query) : bool :=
  match q with SQL_SELECT _ => true | _ => false end.

Definition reads_only {A} (m : ORM A) : Prop :=
  ∀ st, (m st).1.2 = st ∧ forallb is_select (m st).2 = true.

(** The views of [views.py] (all but [list_of_tag], whose table the store
    does not hold) at given URL parameters: those with no handler that
    writes, those with one. *)
Definition read_only_views {project : Project} {lists : ProjectLists}
    (event_slug slug : string) : list View :=
  [SessionListAPIView.view event_slug;
   SessionRetrieveAPIView.view event_slug slug;
   DeniedSessionListAPIView.view event_slug;
   DeniedSessionRetrieveAPIView.view event_slug slug;
   attendee_list_view event_slug;
   speakers_list_view event_slug].

Definition writing_views {project : Project} (import_time : datetime)
    (event_slug slug : string) : list View :=
  [sign_up_to_event_view event_slug;
   EventListCreateAPIView.view import_time;
   EventRetrieveUpdateDestroyAPIView.view event_slug;
   ProposerListCreateAPIView.view event_slug;
   ProposerRetrieveUpdateDestroyAPIView.view event_slug slug].

Definition all_views {project : Project} {lists : ProjectLists}
    (import_time : datetime) (event_slug slug : string) : list View :=
  writing_views import_time event_slug slug ++ read_only_views event_slug slug.

(** The request with another [ordering=]. *)
Definition with_ordering (req : Request) (terms : list (bool * string))
    : Request :=
  {| method := method req; user := user req;
     query_params :=
       {| ordering_param := terms;
          search_param := search_param (query_params req);
          filter_params := filter_params (query_params req) |};
     data := data req; www_authenticate := www_authenticate req |}.

(** ** Further sample data *)

Module FixtureLists.
Definition render_attendee (a : Attendee) : Dict :=
  {[ "user" := JNum (attendee_user a); "events" := JNum (attendee_events a) ]}.

Definition render_speaker (x : Session) : Dict :=
  {[ "speaker" := JNum (proposed_by x); "talk" := JStr (session_title x) ]}.

Definition lists : ProjectLists :=
  {| AttendeeSerializer := render_attendee;
     SpeakerSerializer := render_speaker |}.

(** A store that respects the invariants on attendee rows: user 8 has
    signed up to PyCon, user 7 (its host) to DjangoCon. *)
Definition store : Store :=
  {| events := events Fixture.store; sessions := sessions Fixture.store;
     attendees := [{| attendee_pk := 1; attendee_user := 8; attendee_events := 1 |};
                   {| attendee_pk := 2; attendee_user := 7; attendee_events := 2 |}] |}.
End FixtureLists.

(** * Properties *)

(** Unfolding the monad and the primitive calls. *)
Ltac orm_unfold :=
  cbv beta iota delta
    [mbind ORM_bind mret ORM_ret raise_if raise try_except
     qs_first qs_bool qs_fetch query execute is_valid].

(** ** Lists and queries *)

Lemma filter_no_match {A} (P : A → Prop) `{∀ a, Decision (P a)} (l : list A) :
  (∀ a, a ∈ l → ¬ P a) → filter P l = [].
Proof.
  induction l as [|b l IH]; intros HP; [done|].
  rewrite filter_cons_False by (apply HP; left).
  apply IH. intros a Ha. apply HP. by right.
Qed.

Lemma filter_unique_key {A K} `{EqDecision K} (key : A → K) (l : list A) (a : A) :
  NoDup (key <$> l) → a ∈ l → filter (λ r, key r = key a) l = [a].
Proof.
  induction l as [|b l IH]; intros Hnd Hin; [by apply elem_of_nil in Hin|].
  rewrite fmap_cons in Hnd. apply NoDup_cons in Hnd as [Hb Hnd].
  apply elem_of_cons in Hin as [->|Hin].
  - rewrite filter_cons_True by done. f_equal.
    apply filter_no_match. intros r Hr Heq.
    apply Hb. rewrite <- Heq. by apply list_elem_of_fmap_2.
  - rewrite filter_cons_False; [by apply IH|].
    intros Heq. apply Hb. rewrite Heq. by apply list_elem_of_fmap_2.
Qed.

Lemma next_pk_fresh {A} (key : A → pk) (rows : list A) :
  next_pk key rows ∉ key <$> rows.
Proof.
  assert (∀ r, r ∈ rows → key r < next_pk key rows) as Hlt.
  { unfold next_pk. induction rows as [|r rows IH]; intros r' Hr'.
    - by apply elem_of_nil in Hr'.
    - cbn. apply elem_of_cons in Hr' as [->|Hr']; [lia|].
      specialize (IH r' Hr'). lia. }
  intros (r & Heq & Hr)%list_elem_of_fmap. specialize (Hlt r Hr). lia.
Qed.

(** The three outcomes of [QuerySet.get]. *)
Lemma qs_get_rows {A} (qs : QuerySet A) st :
  qs_get qs st =
    (match qs_rows qs st with
     | [] => Raise DoesNotExist
     | [row] => Ok row
     | _ => Raise MultipleObjectsReturned
     end, st, fetch_queries qs (qs_rows qs st)).
Proof.
  unfold qs_get, qs_fetch, mbind, ORM_bind.
  destruct (qs_rows qs st) as [|? [|? ?]]; cbn; by rewrite ?app_nil_r.
Qed.

Lemma get_object_or_404_rows {A} (qs : QuerySet A) st :
  get_object_or_404 qs st =
    (match qs_rows qs st with
     | [] => Raise Http404
     | [row] => Ok row
     | _ => Raise MultipleObjectsReturned
     end, st, fetch_queries qs (qs_rows qs st)).
Proof.
  unfold get_object_or_404, try_except. rewrite qs_get_rows.
  destruct (qs_rows qs st) as [|? [|? ?]]; cbn; by rewrite ?app_nil_r.
Qed.

Lemma event_rows_found st e :
  event_slugs_unique st → e ∈ events st →
  qs_rows (qs_filter (slug_is (event_slug e)) Event_objects) st = [e].
Proof. intros Hu He. by apply (filter_unique_key event_slug). Qed.

Lemma event_rows_missing st slug :
  (∀ e, e ∈ events st → event_slug e ≠ slug) →
  qs_rows (qs_filter (slug_is slug) Event_objects) st = [].
Proof. intros Hno. by apply filter_no_match. Qed.

(** ** Dispatch *)

Lemma dispatch_handler {A} (perms : list (Permission A)) handlers req h st :
  forallb (λ p, has_permission p req) perms = true →
  handlers (method req) = Some h →
  dispatch perms handlers req st = serve req (h st).
Proof.
  intros Hp Hh. unfold dispatch, check_permissions.
  rewrite Hp, Hh. orm_unfold. by destruct (h st) as [[[?|?] ?] ?].
Qed.

Lemma dispatch_refused {A} (perms : list (Permission A)) handlers req st :
  forallb (λ p, has_permission p req) perms = false →
  dispatch perms handlers req st =
    (handle_exception req
       (API (if is_authenticated (user req) then exceptions.PermissionDenied
             else exceptions.NotAuthenticated)), st, []).
Proof.
  intros Hp. unfold dispatch, check_permissions, permission_denied.
  rewrite Hp. orm_unfold. by destruct (is_authenticated _).
Qed.

Lemma dispatch_no_handler {A} (perms : list (Permission A)) handlers req st :
  forallb (λ p, has_permission p req) perms = true →
  handlers (method req) = None →
  dispatch perms handlers req st =
    (error_response (exceptions.MethodNotAllowed (method_name (method req)))
       status.HTTP_405_METHOD_NOT_ALLOWED, st, []).
Proof.
  intros Hp Hh. unfold dispatch, check_permissions. by rewrite Hp, Hh.
Qed.

Lemma GET_is_safe : bool_decide (GET ∈ SAFE_METHODS) = true.
Proof. reflexivity. Qed.

Lemma unsafe_methods m : m ≠ GET → bool_decide (m ∈ SAFE_METHODS) = false.
Proof. by destruct m. Qed.

Lemma writing_method_not_GET m : m ∈ [POST; PUT; PATCH; DELETE] → m ≠ GET.
Proof.
  intros Hm ->. repeat (apply elem_of_cons in Hm as [Hm|Hm]; [discriminate|]).
  by apply elem_of_nil in Hm.
Qed.

(** ** Signing up *)

Lemma signups_elem st u e a :
  a ∈ signups st u e ↔
  a ∈ attendees st ∧ attendee_user a = u ∧ attendee_events a = event_pk e.
Proof.
  unfold signups, event_attendees, qs_filter, attendee_user_is,
    attendee_events_is; cbn.
  rewrite !list_elem_of_filter. tauto.
Qed.

(** What the handler does once the event is found. *)
Lemma sign_up_to_event_found request slug st e id :
  user request = AuthUser id →
  qs_rows (qs_filter (slug_is slug) Event_objects) st = [e] →
  sign_up_to_event request slug st =
    if decide (hosted_by e = id) then
      (Raise (API (owner_error e)), st,
       [SQL_SELECT event_table; SQL_SELECT user_table])
    else if decide (signups st id e = []) then
      (Ok (Response_ NoBody status.HTTP_201_CREATED), with_signup st id e,
       [SQL_SELECT event_table; SQL_SELECT user_table;
        SQL_SELECT attendee_table; SQL_INSERT attendee_table])
    else
      (Raise (API (duplicate_error e)), st,
       [SQL_SELECT event_table; SQL_SELECT user_table;
        SQL_SELECT attendee_table]).
Proof.
  intros Hu Hrows. unfold sign_up_to_event.
  unfold mbind at 1. unfold ORM_bind. rewrite get_object_or_404_rows, Hrows.
  rewrite Hu. unfold related_user. orm_unfold. cbn.
  destruct (decide (hosted_by e = id)) as [Heq|Hne].
  - by rewrite bool_decide_eq_true_2.
  - rewrite bool_decide_eq_false_2 by done.
    unfold signups. cbn.
    by destruct (filter (attendee_user_is id) _) as [|a l].
Qed.

(** The routed view on an authenticated POST: the handler, with its
    exception turned into a response. *)
Lemma sign_up_to_event_view_POST slug request now st id :
  method request = POST → user request = AuthUser id →
  sign_up_to_event_view slug request now st =
    serve request (sign_up_to_event request slug st).
Proof.
  intros Hm Hu. unfold sign_up_to_event_view.
  apply dispatch_handler; [by cbn; rewrite Hu|].
  unfold api_view. by rewrite Hm, decide_True.
Qed.

Lemma sign_up_missing_event slug request now st id :
  method request = POST → user request = AuthUser id →
  (∀ e, e ∈ events st → event_slug e ≠ slug) →
  sign_up_to_event_view slug request now st =
    (error_response exceptions.NotFound status.HTTP_404_NOT_FOUND, st,
     [SQL_SELECT event_table]).
Proof.
  intros Hm Hu Hno. rewrite (sign_up_to_event_view_POST _ _ _ _ id) by done.
  unfold sign_up_to_event. orm_unfold.
  by rewrite get_object_or_404_rows, event_rows_missing.
Qed.

Lemma sign_up_by_host request now st e id :
  method request = POST → user request = AuthUser id →
  event_slugs_unique st → e ∈ events st → hosted_by e = id →
  sign_up_to_event_view (event_slug e) request now st =
    (error_response (owner_error e) status.HTTP_500_INTERNAL_SERVER_ERROR, st,
     [SQL_SELECT event_table; SQL_SELECT user_table]).
Proof.
  intros Hm Hu Huniq He Hhost.
  rewrite (sign_up_to_event_view_POST _ _ _ _ id) by done.
  rewrite (sign_up_to_event_found _ _ _ e id) by auto using event_rows_found.
  by rewrite decide_True.
Qed.

Lemma sign_up_duplicate request now st e id :
  method request = POST → user request = AuthUser id →
  event_slugs_unique st → e ∈ events st → hosted_by e ≠ id →
  signups st id e ≠ [] →
  sign_up_to_event_view (event_slug e) request now st =
    (error_response (duplicate_error e) status.HTTP_500_INTERNAL_SERVER_ERROR,
     st, [SQL_SELECT event_table; SQL_SELECT user_table;
      SQL_SELECT attendee_table]).
Proof.
  intros Hm Hu Huniq He Hhost Hdup.
  rewrite (sign_up_to_event_view_POST _ _ _ _ id) by done.
  rewrite (sign_up_to_event_found _ _ _ e id) by auto using event_rows_found.
  by rewrite decide_False, decide_False.
Qed.

Lemma sign_up_fresh request now st e id :
  method request = POST → user request = AuthUser id →
  event_slugs_unique st → e ∈ events st → hosted_by e ≠ id →
  signups st id e = [] →
  sign_up_to_event_view (event_slug e) request now st =
    (Response_ NoBody status.HTTP_201_CREATED, with_signup st id e,
     [SQL_SELECT event_table; SQL_SELECT user_table;
      SQL_SELECT attendee_table;
      SQL_INSERT attendee_table]).
Proof.
  intros Hm Hu Huniq He Hhost Hnone.
  rewrite (sign_up_to_event_view_POST _ _ _ _ id) by done.
  rewrite (sign_up_to_event_found _ _ _ e id) by auto using event_rows_found.
  by rewrite decide_False, decide_True.
Qed.

(** After a successful signup the pair has a row, so a second signup is
    refused and adds nothing. *)
Lemma sign_up_twice request now now' st e id :
  method request = POST → user request = AuthUser id →
  event_slugs_unique st → e ∈ events st → hosted_by e ≠ id →
  signups st id e = [] →
  let st' := store_of (sign_up_to_event_view (event_slug e) request now st) in
  signups st' id e = [signup_row st id e] ∧
  sign_up_to_event_view (event_slug e) request now' st' =
    (error_response (duplicate_error e) status.HTTP_500_INTERNAL_SERVER_ERROR,
     st', [SQL_SELECT event_table; SQL_SELECT user_table;
      SQL_SELECT attendee_table]).
Proof.
  intros Hm Hu Huniq He Hhost Hnone. cbn zeta.
  rewrite (sign_up_fresh _ _ _ _ id) by done. unfold store_of; cbn.
  assert (signups (with_signup st id e) id e = [signup_row st id e]) as Hs.
  { unfold signups in *. cbn in *.
    rewrite !filter_app, Hnone.
    rewrite (filter_cons_True (attendee_events_is e)) by done.
    by rewrite filter_nil, filter_cons_True. }
  split; [done|]. apply (sign_up_duplicate _ _ _ _ id); try done.
  by rewrite Hs.
Qed.

(** The two refusals carry different messages whatever the title. *)
Lemma owner_error_not_duplicate_error e e' :
  detail (owner_error e) ≠ detail (duplicate_error e').
Proof. cbn. discriminate. Qed.

(** ** C1, C8: the signup action *)

(** C1.  The signup action refuses the host of the event and a user who has
    already signed up, and the specification gives both refusals the status
    400.  The view raises a bare [APIException] and passes 400 as its
    [code], so the response carries that exception's [status_code]: both
    refusals are answered 500, not 400, and add no row. *)
Theorem sign_up_refusals_answer_500 request now st e id :
  method request = POST → user request = AuthUser id →
  event_slugs_unique st → e ∈ events st →
  hosted_by e = id ∨ signups st id e ≠ [] →
  let served := sign_up_to_event_view (event_slug e) request now st in
  resp_status (response_of served) = status.HTTP_500_INTERNAL_SERVER_ERROR
  ∧ resp_status (response_of served) ≠ status.HTTP_400_BAD_REQUEST
  ∧ store_of served = st.
Proof.
  intros Hm Hu Huniq He Hwhy. cbn zeta.
  destruct (decide (hosted_by e = id)) as [Hhost|Hhost].
  - by rewrite (sign_up_by_host _ _ _ _ id).
  - destruct Hwhy as [?|Hdup]; [done|].
    by rewrite (sign_up_duplicate _ _ _ _ id).
Qed.

Lemma sign_up_refusals_answer_500_witness :
  let served := sign_up_to_event_view "pycon-2024"
                  (Fixture.request POST (AuthUser 8)) 100 Fixture.store in
  resp_status (response_of served) = 500
  ∧ resp_status (response_of served) ≠ 400
  ∧ store_of served = Fixture.store.
Proof.
  apply (sign_up_refusals_answer_500
           (Fixture.request POST (AuthUser 8)) 100 Fixture.store Fixture.pycon 8).
  - reflexivity.
  - reflexivity.
  - refine (bool_decide_unpack _ _). vm_compute. exact I.
  - refine (bool_decide_unpack _ _). vm_compute. exact I.
  - right. vm_compute. discriminate.
Defined.

(** The host of the sample event, user 7, is answered 500 as well. *)
Example host_signs_up :
  resp_status (response_of (sign_up_to_event_view "pycon-2024"
     (Fixture.request POST (AuthUser 7)) 100 Fixture.store)) = 500.
Proof. reflexivity. Qed.

(** The host is refused after two statements: the lookup of the event and
    the load of its [hosted_by]. *)
Example host_signs_up_queries :
  queries_of (sign_up_to_event_view "pycon-2024"
     (Fixture.request POST (AuthUser 7)) 100 Fixture.store)
  = [SQL_SELECT event_table; SQL_SELECT user_table].
Proof. reflexivity. Qed.

(** Whatever the store, an authenticated POST is answered 201 (a row was
    added), 404 (no event) or 500 (a refusal): never 400. *)
Lemma sign_up_status request now st slug id :
  method request = POST → user request = AuthUser id →
  event_slugs_unique st →
  resp_status (response_of (sign_up_to_event_view slug request now st))
    ∈ [status.HTTP_201_CREATED; status.HTTP_404_NOT_FOUND;
       status.HTTP_500_INTERNAL_SERVER_ERROR].
Proof.
  intros Hm Hu Huniq.
  destruct (decide (Exists (λ e, event_slug e = slug) (events st))) as [Hex|Hno].
  - apply Exists_exists in Hex as (e & He & <-).
    destruct (decide (hosted_by e = id)) as [Hhost|Hhost].
    { rewrite (sign_up_by_host _ _ _ _ id) by done. set_solver. }
    destruct (decide (signups st id e = [])) as [Hs|Hs].
    + rewrite (sign_up_fresh _ _ _ _ id) by done. set_solver.
    + rewrite (sign_up_duplicate _ _ _ _ id) by done. set_solver.
  - rewrite (sign_up_missing_event _ _ _ _ id); [set_solver|done..|].
    intros e He Hs. apply Hno, Exists_exists. eauto.
Qed.

(** C8.  A host who also has a row for the own event is refused as the
    owner: the response carries the owner message, not the duplicate one,
    the attendee table is never read, and no row is added. *)
Theorem owner_check_precedes_duplicate_check request now st e id :
  method request = POST → user request = AuthUser id →
  event_slugs_unique st → e ∈ events st →
  hosted_by e = id → signups st id e ≠ [] →
  let served := sign_up_to_event_view (event_slug e) request now st in
  resp_data (response_of served)
    = Object {[ "detail" := JStr (detail (owner_error e)) ]}
  ∧ resp_data (response_of served)
    ≠ Object {[ "detail" := JStr (detail (duplicate_error e)) ]}
  ∧ (SQL_SELECT attendee_table ∉ queries_of served)
  ∧ store_of served = st.
Proof.
  intros Hm Hu Huniq He Hhost _. cbn zeta.
  rewrite (sign_up_by_host _ _ _ _ id) by done.
  unfold response_of, queries_of, store_of; cbn.
  split_and!; try done.
  intros Hin. repeat (apply elem_of_cons in Hin as [Hin|Hin]; [discriminate|]).
  by apply elem_of_nil in Hin.
Qed.

Lemma owner_check_precedes_duplicate_check_witness :
  let served := sign_up_to_event_view "pycon-2024"
                  (Fixture.request POST (AuthUser 7)) 100 Fixture.store in
  resp_data (response_of served)
    = Object {[ "detail" := JStr "You are the owner of the PyCon 2024." ]}
  ∧ resp_data (response_of served)
    ≠ Object {[ "detail" := JStr "You already attended the PyCon 2024." ]}
  ∧ (SQL_SELECT attendee_table ∉ queries_of served)
  ∧ store_of served = Fixture.store.
Proof.
  apply (owner_check_precedes_duplicate_check
           (Fixture.request POST (AuthUser 7)) 100 Fixture.store Fixture.pycon 7).
  - reflexivity.
  - reflexivity.
  - refine (bool_decide_unpack _ _). vm_compute. exact I.
  - refine (bool_decide_unpack _ _). vm_compute. exact I.
  - reflexivity.
  - vm_compute. discriminate.
Defined.

(** ** C2: the event list *)

Lemma row_le_event_date (a b : Event) :
  row_le EventListCreateAPIView.ordering a b ↔ event_date a ≤ event_date b.
Proof.
  unfold row_le, EventListCreateAPIView.ordering. cbn.
  destruct (Z.compare_spec (event_date a) (event_date b)); split; (done || lia).
Qed.

Lemma Sorted_weaken {A} (R R' : relation A) (l : list A) :
  (∀ a b, R a b → R' a b) → Sorted R l → Sorted R' l.
Proof.
  intros HR. induction 1 as [|a l Hl IH Hhd]; constructor; [done|].
  destruct Hhd; constructor; auto.
Qed.

Lemma row_le_event_date_total :
  Total (row_le (A := Event) EventListCreateAPIView.ordering).
Proof.
  intros a b. rewrite !row_le_event_date. lia.
Qed.

(** A GET on the list view: the class queryset through the three filter
    backends, fetched and rendered. *)
Lemma event_list_GET {project : Project} import_time request now st f :
  method request = GET →
  EventFilter (filter_params (query_params request)) = Some f →
  let rows :=
    qs_rows
      (filters.SearchFilter EventListCreateAPIView.search_fields request
         (filters.OrderingFilter EventListCreateAPIView.ordering_fields
            EventListCreateAPIView.ordering request
            (qs_filter (event_filter_matches f)
               (EventListCreateAPIView.queryset import_time)))) st in
  EventListCreateAPIView.view import_time request now st =
    (Response_ (Array (EventListSerializer <$> rows)) status.HTTP_200_OK,
     st, SQL_SELECT event_table :: prefetch_queries [tags_table] rows).
Proof.
  intros Hm Hf. cbn zeta. unfold EventListCreateAPIView.view.
  rewrite (dispatch_handler _ _ _
             (EventListCreateAPIView.list import_time request));
    [|by cbn; rewrite Hm, GET_is_safe|by rewrite Hm].
  unfold EventListCreateAPIView.list, EventListCreateAPIView.filter_queryset,
    DjangoFilterBackend, list_rows.
  rewrite Hf. orm_unfold. cbn. rewrite app_nil_r.
  unfold filters.SearchFilter, filters.OrderingFilter.
  by repeat case_match.
Qed.

(** With no query parameters (and a filter set that then lets every row
    through) the list is the events dated after [import_time], the time the
    class body ran, by ascending [event_date].  The time of the request
    plays no part. *)
Lemma event_list_default {project : Project} import_time request now st f :
  method request = GET → query_params request = no_params →
  EventFilter [] = Some f → (∀ e, f e = true) →
  ∃ rows,
    EventListCreateAPIView.view import_time request now st =
      (Response_ (Array (EventListSerializer <$> rows)) status.HTTP_200_OK,
       st, SQL_SELECT event_table :: prefetch_queries [tags_table] rows)
    ∧ rows ≡ₚ filter (λ e, import_time < event_date e) (events st)
    ∧ Sorted (λ a b, event_date a ≤ event_date b) rows.
Proof.
  intros Hm Hq Hf Hall.
  exists (merge_sort (row_le EventListCreateAPIView.ordering)
            (filter (event_filter_matches f)
               (filter (event_date__gt import_time) (events st)))).
  split; [|split].
  - rewrite (event_list_GET _ _ _ _ f); [|done|by rewrite Hq].
    unfold filters.SearchFilter, filters.OrderingFilter, filters.get_ordering.
    rewrite Hq. reflexivity.
  - rewrite merge_sort_Permutation.
    unfold event_filter_matches, event_date__gt.
    induction (events st) as [|e l IH]; [done|].
    rewrite !filter_cons. destruct (decide (import_time < event_date e)).
    + rewrite filter_cons_True by done. by f_equiv.
    + done.
  - eapply Sorted_weaken;
      [|apply (@Sorted_merge_sort _ _ _ row_le_event_date_total)].
    intros a b. apply row_le_event_date.
Qed.

(** C2.  The specification has the event list exclude every event whose
    [event_date] is not after the time of the request.  The filter compares
    with the time at which the class body ran: an event dated after the
    import of the module and not after the request is among the rows the
    list renders. *)
Theorem event_list_keeps_event_past_at_request {project : Project}
    import_time request now st f e :
  method request = GET → query_params request = no_params →
  EventFilter [] = Some f → (∀ e, f e = true) →
  e ∈ events st → import_time < event_date e → event_date e ≤ now →
  ∃ rows,
    response_of (EventListCreateAPIView.view import_time request now st)
      = Response_ (Array (EventListSerializer <$> rows)) status.HTTP_200_OK
    ∧ e ∈ rows.
Proof.
  intros Hm Hq Hf Hall He Hafter _.
  destruct (event_list_default import_time request now st f Hm Hq Hf Hall)
    as (rows & Hview & Hperm & _).
  exists rows. rewrite Hview. split; [done|].
  rewrite Hperm. by apply list_elem_of_filter.
Qed.

Lemma event_list_keeps_event_past_at_request_witness :
  ∃ rows,
    response_of (EventListCreateAPIView.view (project := Fixture.project)
                   100 (Fixture.request GET AnonymousUser) 200 Fixture.store)
      = Response_ (Array (Fixture.render_event <$> rows)) status.HTTP_200_OK
    ∧ Fixture.pycon ∈ rows.
Proof.
  apply (event_list_keeps_event_past_at_request (project := Fixture.project)
           100 (Fixture.request GET AnonymousUser) 200 Fixture.store
           (λ _, true) Fixture.pycon).
  - reflexivity.
  - reflexivity.
  - reflexivity.
  - reflexivity.
  - refine (bool_decide_unpack _ _). vm_compute. exact I.
  - reflexivity.
  - discriminate.
Defined.

(** A server that imported the module at time 100 still lists, at time
    200, the event dated 150. *)
Example event_list_at_200 :
  resp_data (response_of
    (EventListCreateAPIView.view (project := Fixture.project)
       100 (Fixture.request GET AnonymousUser) 200 Fixture.store))
  = Array [Fixture.render_event Fixture.pycon;
           Fixture.render_event Fixture.djangocon].
Proof. vm_compute. reflexivity. Qed.

(** ** C3, C4, C9: retrieving an event *)

(** [except Exception: raise e] lets no other exception out, whatever the
    guarded computation is. *)
Lemma try_except_catch_all {A} (m : ORM A) (e e' : Exc) st st' q :
  try_except m (λ _, raise e) st = (Raise e', st', q) → e' = e.
Proof.
  unfold try_except, raise. destruct (m st) as [[[a|e''] st''] q'']; cbn;
    congruence.
Qed.

(** A GET passes both permission classes and reaches [retrieve]. *)
Lemma event_retrieve_GET {project : Project} slug request now st :
  method request = GET →
  EventRetrieveUpdateDestroyAPIView.view slug request now st =
    serve request
      (EventRetrieveUpdateDestroyAPIView.retrieve request slug now st).
Proof.
  intros Hm. unfold EventRetrieveUpdateDestroyAPIView.view.
  apply dispatch_handler; [by cbn; rewrite Hm, GET_is_safe|by rewrite Hm].
Qed.

Lemma event_retrieve_found {project : Project} slug request now st e :
  qs_rows (qs_filter (slug_is slug) Event_objects) st = [e] →
  EventRetrieveUpdateDestroyAPIView.retrieve request slug now st =
    (Ok (Response_ (Object (retrieve_data st (user request) now e))
           status.HTTP_200_OK),
     st,
     SQL_SELECT event_table :: SQL_SELECT organizers_table ::
       SQL_SELECT tags_table ::
       if is_authenticated (user request) then [SQL_SELECT attendee_table]
       else []).
Proof.
  intros Hrows. unfold EventRetrieveUpdateDestroyAPIView.retrieve.
  unfold mbind at 1. unfold ORM_bind, try_except.
  rewrite qs_get_rows.
  change (qs_rows (qs_filter (slug_is slug)
                     EventRetrieveUpdateDestroyAPIView.queryset) st)
    with (qs_rows (qs_filter (slug_is slug) Event_objects) st).
  rewrite Hrows. unfold retrieve_data, signed_up, signups.
  destruct (user request) as [|id]; cbn; orm_unfold; cbn; [done|].
  by destruct (filter (attendee_user_is id) _).
Qed.

Lemma event_retrieve_failed {project : Project} slug request now st :
  (∀ e, qs_rows (qs_filter (slug_is slug) Event_objects) st ≠ [e]) →
  EventRetrieveUpdateDestroyAPIView.retrieve request slug now st =
    (Raise (API exceptions.NotFound), st,
     SQL_SELECT event_table ::
       prefetch_queries [organizers_table; tags_table]
         (qs_rows (qs_filter (slug_is slug) Event_objects) st)).
Proof.
  intros Hrows. unfold EventRetrieveUpdateDestroyAPIView.retrieve.
  unfold mbind at 1. unfold ORM_bind, try_except.
  rewrite qs_get_rows.
  change (qs_rows (qs_filter (slug_is slug)
                     EventRetrieveUpdateDestroyAPIView.queryset) st)
    with (qs_rows (qs_filter (slug_is slug) Event_objects) st).
  destruct (qs_rows _ st) as [|e [|e' l]]; [done| |done].
  by destruct (Hrows e).
Qed.

Lemma event_retrieve_view_found {project : Project} request now st e :
  method request = GET → event_slugs_unique st → e ∈ events st →
  EventRetrieveUpdateDestroyAPIView.view (event_slug e) request now st =
    (Response_ (Object (retrieve_data st (user request) now e))
       status.HTTP_200_OK,
     st,
     SQL_SELECT event_table :: SQL_SELECT organizers_table ::
       SQL_SELECT tags_table ::
       if is_authenticated (user request) then [SQL_SELECT attendee_table]
       else []).
Proof.
  intros Hm Hu He. rewrite event_retrieve_GET by done.
  by rewrite (event_retrieve_found _ _ _ _ e) by by apply event_rows_found.
Qed.

(** C3.  The response to a retrieve of an existing event has the key
    [event_is_open], true exactly when [event_date] is strictly after the
    reading of the clock taken while the response is built. *)
Theorem event_is_open_iff_future {project : Project} request now st e :
  method request = GET → event_slugs_unique st → e ∈ events st →
  ∃ d b,
    response_of (EventRetrieveUpdateDestroyAPIView.view (event_slug e)
                   request now st)
      = Response_ (Object d) status.HTTP_200_OK
    ∧ d !! "event_is_open" = Some (JBool b)
    ∧ (b = true ↔ now < event_date e).
Proof.
  intros Hm Hu He. rewrite event_retrieve_view_found by done.
  eexists _, _. split; [reflexivity|]. split.
  - unfold retrieve_data. rewrite lookup_insert_ne by done.
    apply lookup_insert_eq.
  - apply bool_decide_eq_true.
Qed.

Lemma event_is_open_iff_future_witness :
  ∃ d b,
    response_of (EventRetrieveUpdateDestroyAPIView.view
                   (project := Fixture.project) "pycon-2024"
                   (Fixture.request GET AnonymousUser) 100 Fixture.store)
      = Response_ (Object d) status.HTTP_200_OK
    ∧ d !! "event_is_open" = Some (JBool b)
    ∧ (b = true ↔ 100 < 150).
Proof.
  apply (event_is_open_iff_future (project := Fixture.project)
           (Fixture.request GET AnonymousUser) 100 Fixture.store Fixture.pycon).
  - reflexivity.
  - refine (bool_decide_unpack _ _). vm_compute. exact I.
  - refine (bool_decide_unpack _ _). vm_compute. exact I.
Defined.

(** C4.  The response to a retrieve of an existing event has the key
    [has_sign_up], true exactly when the requester is authenticated and the
    attendee table has a row for the requester and the event; it is false
    for an anonymous requester. *)
Theorem has_sign_up_iff_attendee_row {project : Project} request now st e :
  method request = GET → event_slugs_unique st → e ∈ events st →
  ∃ d b,
    response_of (EventRetrieveUpdateDestroyAPIView.view (event_slug e)
                   request now st)
      = Response_ (Object d) status.HTTP_200_OK
    ∧ d !! "has_sign_up" = Some (JBool b)
    ∧ (b = true ↔
       ∃ id a, user request = AuthUser id ∧ a ∈ attendees st
               ∧ attendee_user a = id ∧ attendee_events a = event_pk e)
    ∧ (user request = AnonymousUser → b = false).
Proof.
  intros Hm Hu He. rewrite event_retrieve_view_found by done.
  eexists _, _. split; [reflexivity|]. split; [|split].
  - unfold retrieve_data. rewrite !lookup_insert_ne by done.
    apply lookup_insert_eq.
  - unfold signed_up. destruct (user request) as [|id].
    + split; [done|]. by intros (? & ? & ? & _).
    + rewrite bool_decide_eq_true. split.
      * intros Hne. destruct (signups st id e) as [|a l] eqn:Hs; [done|].
        assert (a ∈ signups st id e) as Ha by (rewrite Hs; left).
        apply signups_elem in Ha as (Ha & Hua & Hea). by exists id, a.
      * intros (id' & a & [= <-] & Ha) Hnil.
        assert (a ∈ signups st id e) as Hin by by apply signups_elem.
        rewrite Hnil in Hin. by apply elem_of_nil in Hin.
  - by intros ->.
Qed.

Lemma has_sign_up_iff_attendee_row_witness :
  ∃ d b,
    response_of (EventRetrieveUpdateDestroyAPIView.view
                   (project := Fixture.project) "pycon-2024"
                   (Fixture.request GET (AuthUser 8)) 100 Fixture.store)
      = Response_ (Object d) status.HTTP_200_OK
    ∧ d !! "has_sign_up" = Some (JBool b)
    ∧ (b = true ↔
       ∃ id a, AuthUser 8 = AuthUser id ∧ a ∈ attendees Fixture.store
               ∧ attendee_user a = id ∧ attendee_events a = 1)
    ∧ (AuthUser 8 = AnonymousUser → b = false).
Proof.
  apply (has_sign_up_iff_attendee_row (project := Fixture.project)
           (Fixture.request GET (AuthUser 8)) 100 Fixture.store Fixture.pycon).
  - reflexivity.
  - refine (bool_decide_unpack _ _). vm_compute. exact I.
  - refine (bool_decide_unpack _ _). vm_compute. exact I.
Defined.

(** C9.  Whatever exception the lookup by slug raises in [retrieve], be it
    [DoesNotExist] or not, the response is that of [NotFound], with status
    404, and the store is left as it was. *)
Theorem retrieve_lookup_failure_is_404 {project : Project}
    request slug now st exc st' q :
  method request = GET →
  qs_get (qs_filter (slug_is slug) EventRetrieveUpdateDestroyAPIView.queryset)
    st = (Raise exc, st', q) →
  let served := EventRetrieveUpdateDestroyAPIView.view slug request now st in
  response_of served
    = error_response exceptions.NotFound status.HTTP_404_NOT_FOUND
  ∧ store_of served = st.
Proof.
  intros Hm Hget. cbn zeta. rewrite event_retrieve_GET by done.
  rewrite event_retrieve_failed; [done|].
  intros e Hrows. rewrite qs_get_rows in Hget.
  change (qs_rows (qs_filter (slug_is slug)
                     EventRetrieveUpdateDestroyAPIView.queryset) st)
    with (qs_rows (qs_filter (slug_is slug) Event_objects) st) in Hget.
  by rewrite Hrows in Hget.
Qed.

Lemma retrieve_lookup_failure_is_404_witness :
  let served :=
    EventRetrieveUpdateDestroyAPIView.view (project := Fixture.project)
      "pycon-2024" (Fixture.request GET AnonymousUser) 100
      Fixture.store_with_twins in
  response_of served
    = error_response exceptions.NotFound status.HTTP_404_NOT_FOUND
  ∧ store_of served = Fixture.store_with_twins.
Proof.
  apply (retrieve_lookup_failure_is_404 (project := Fixture.project)
           (Fixture.request GET AnonymousUser) "pycon-2024" 100
           Fixture.store_with_twins MultipleObjectsReturned
           Fixture.store_with_twins
           [SQL_SELECT event_table; SQL_SELECT organizers_table;
            SQL_SELECT tags_table]).
  - reflexivity.
  - vm_compute. reflexivity.
Defined.

(** The lookup that finds two rows has fetched them, and the relations the
    class queryset prefetches, before it raises. *)
Example retrieve_ambiguous_slug_queries :
  queries_of (EventRetrieveUpdateDestroyAPIView.view
     (project := Fixture.project) "pycon-2024"
     (Fixture.request GET AnonymousUser) 100 Fixture.store_with_twins)
  = [SQL_SELECT event_table; SQL_SELECT organizers_table;
     SQL_SELECT tags_table].
Proof. reflexivity. Qed.

(** Both failures of the lookup occur, and the views that go through
    [get_object_or_404] answer the second one differently. *)
Example retrieve_absent_slug :
  resp_status (response_of (EventRetrieveUpdateDestroyAPIView.view
     (project := Fixture.project) "europython"
     (Fixture.request GET AnonymousUser) 100 Fixture.store)) = 404.
Proof. reflexivity. Qed.

Example sign_up_ambiguous_slug :
  resp_status (response_of (sign_up_to_event_view "pycon-2024"
     (Fixture.request POST (AuthUser 9)) 100 Fixture.store_with_twins)) = 500.
Proof. reflexivity. Qed.

(** ** C5: the three session listings *)

Lemma NoDup_fmap_eq {A K} (key : A → K) (l : list A) (a b : A) :
  NoDup (key <$> l) → a ∈ l → b ∈ l → key a = key b → a = b.
Proof.
  induction l as [|c l IH]; intros Hnd Ha Hb Hk; [by apply elem_of_nil in Ha|].
  rewrite fmap_cons in Hnd. apply NoDup_cons in Hnd as [Hc Hnd].
  apply elem_of_cons in Ha as [->|Ha]; apply elem_of_cons in Hb as [->|Hb];
    [done| | |by apply IH].
  - destruct Hc. rewrite Hk. by apply list_elem_of_fmap_2.
  - destruct Hc. rewrite <- Hk. by apply list_elem_of_fmap_2.
Qed.

(** Under unique event slugs, the join on the slug of the parent selects
    the sessions whose foreign key is the event. *)
Lemma events__slug_of_event st e x :
  event_slugs_unique st → e ∈ events st →
  events__slug (event_slug e) st x ↔ session_events x = event_pk e.
Proof.
  intros Hu He. unfold events__slug. split.
  - intros (e' & He' & Hpk & Hslug).
    by rewrite <- Hpk, (NoDup_fmap_eq event_slug _ e' e Hu).
  - intros Hpk. by exists e.
Qed.

(** The rows a list view fetches, when the request has no [search=]. *)
Lemma session_listing_elem request status_literal event_slug st x :
  search_param (query_params request) = [] →
  x ∈ qs_rows (session_filter_queryset request
                 (sessions_with_status status_literal event_slug)) st ↔
  x ∈ sessions st ∧ session_status x = status_literal
  ∧ events__slug event_slug st x.
Proof.
  intros Hs. unfold session_filter_queryset, filters.SearchFilter.
  rewrite Hs. cbn. unfold filters.OrderingFilter.
  destruct (filters.get_ordering _ _ _) as [|t ts]; cbn;
    rewrite ?merge_sort_Permutation, !list_elem_of_filter;
    unfold status_is; tauto.
Qed.

Lemma list_rows_eq {A} (serializer : A → Dict) (qs : QuerySet A) st :
  list_rows serializer qs st =
    (Ok (Response_ (Array (serializer <$> qs_rows qs st)) status.HTTP_200_OK),
     st, fetch_queries qs (qs_rows qs st)).
Proof. unfold list_rows. orm_unfold. by rewrite app_nil_r. Qed.

Lemma session_filter_queryset_table request (qs : QuerySet Session) :
  qs_table (session_filter_queryset request qs) = qs_table qs.
Proof.
  unfold session_filter_queryset, filters.SearchFilter, filters.OrderingFilter.
  by repeat case_match.
Qed.

Lemma session_filter_queryset_prefetch request (qs : QuerySet Session) :
  qs_prefetch (session_filter_queryset request qs) = qs_prefetch qs.
Proof.
  unfold session_filter_queryset, filters.SearchFilter, filters.OrderingFilter.
  by repeat case_match.
Qed.

(** The session querysets prefetch nothing: evaluating one is one
    [SELECT]. *)
Lemma session_fetch_queries request (qs : QuerySet Session) rows :
  qs_prefetch qs = [] →
  fetch_queries (session_filter_queryset request qs) rows
    = [SQL_SELECT (qs_table qs)].
Proof.
  intros Hp. unfold fetch_queries.
  by rewrite session_filter_queryset_table, session_filter_queryset_prefetch,
    Hp.
Qed.

Lemma proposer_list_GET {project : Project} event_slug request now st :
  method request = GET →
  ProposerListCreateAPIView.view event_slug request now st =
    (Response_
       (Array (SessionListSerializer <$>
          qs_rows (session_filter_queryset request
                     (ProposerListCreateAPIView.get_queryset event_slug)) st))
       status.HTTP_200_OK,
     st, [SQL_SELECT session_table]).
Proof.
  intros Hm. unfold ProposerListCreateAPIView.view.
  rewrite (dispatch_handler _ _ _
             (ProposerListCreateAPIView.list request event_slug));
    [|by cbn; rewrite Hm, GET_is_safe|by rewrite Hm].
  unfold ProposerListCreateAPIView.list.
  by rewrite list_rows_eq, session_fetch_queries.
Qed.

Lemma accepted_list_GET {project : Project} event_slug request now st :
  method request = GET →
  SessionListAPIView.view event_slug request now st =
    (Response_
       (Array (SessionListSerializer <$>
          qs_rows (session_filter_queryset request
                     (SessionListAPIView.get_queryset event_slug)) st))
       status.HTTP_200_OK,
     st, [SQL_SELECT session_table]).
Proof.
  intros Hm. unfold SessionListAPIView.view.
  rewrite (dispatch_handler _ _ _ (SessionListAPIView.list request event_slug));
    [|done|by rewrite Hm].
  unfold SessionListAPIView.list.
  by rewrite list_rows_eq, session_fetch_queries.
Qed.

Lemma denied_list_GET {project : Project} event_slug request now st :
  method request = GET →
  DeniedSessionListAPIView.view event_slug request now st =
    (Response_
       (Array (SessionListSerializer <$>
          qs_rows (session_filter_queryset request
                     (DeniedSessionListAPIView.get_queryset event_slug)) st))
       status.HTTP_200_OK,
     st, [SQL_SELECT session_table]).
Proof.
  intros Hm. unfold DeniedSessionListAPIView.view.
  rewrite (dispatch_handler _ _ _
             (DeniedSessionListAPIView.list request event_slug));
    [|done|by rewrite Hm].
  unfold DeniedSessionListAPIView.list.
  by rewrite list_rows_eq, session_fetch_queries.
Qed.

(** C5.  For an event, the Draft, Accepted and Denied listings together
    hold exactly the sessions of the event, and no session is in two of
    them.  The listings are the rows the three list views render. *)
Theorem session_listings_partition {project : Project} request now st e :
  method request = GET → search_param (query_params request) = [] →
  event_slugs_unique st → session_status_valid st → e ∈ events st →
  ∃ draft accepted denied,
    response_of (ProposerListCreateAPIView.view (event_slug e) request now st)
      = Response_ (Array (SessionListSerializer <$> draft)) status.HTTP_200_OK
    ∧ response_of (SessionListAPIView.view (event_slug e) request now st)
      = Response_ (Array (SessionListSerializer <$> accepted)) status.HTTP_200_OK
    ∧ response_of (DeniedSessionListAPIView.view (event_slug e) request now st)
      = Response_ (Array (SessionListSerializer <$> denied)) status.HTTP_200_OK
    ∧ (∀ x, x ∈ draft ++ accepted ++ denied ↔
            x ∈ sessions st ∧ session_events x = event_pk e)
    ∧ (∀ x, x ∈ draft → x ∉ accepted)
    ∧ (∀ x, x ∈ draft → x ∉ denied)
    ∧ (∀ x, x ∈ accepted → x ∉ denied).
Proof.
  intros Hm Hs Hu Hv He.
  exists
    (qs_rows (session_filter_queryset request
                (ProposerListCreateAPIView.get_queryset (event_slug e))) st),
    (qs_rows (session_filter_queryset request
                (SessionListAPIView.get_queryset (event_slug e))) st),
    (qs_rows (session_filter_queryset request
                (DeniedSessionListAPIView.get_queryset (event_slug e))) st).
  rewrite proposer_list_GET, accepted_list_GET, denied_list_GET by done.
  unfold ProposerListCreateAPIView.get_queryset, SessionListAPIView.get_queryset,
    DeniedSessionListAPIView.get_queryset.
  split_and!; try done.
  - intros x. rewrite !elem_of_app, !session_listing_elem by done.
    rewrite (events__slug_of_event st e x) by done. split; [tauto|].
    intros [Hx Hpk]. unfold session_status_valid in Hv.
    rewrite Forall_forall in Hv. specialize (Hv x Hx).
    unfold SESSION_STATUS in Hv. set_unfold. tauto.
  - intros x. rewrite !session_listing_elem by done.
    intros (_ & Hd & _) (_ & Ha & _). by rewrite Hd in Ha.
  - intros x. rewrite !session_listing_elem by done.
    intros (_ & Hd & _) (_ & Ha & _). by rewrite Hd in Ha.
  - intros x. rewrite !session_listing_elem by done.
    intros (_ & Hd & _) (_ & Ha & _). by rewrite Hd in Ha.
Qed.

Lemma session_listings_partition_witness :
  ∃ draft accepted denied,
    response_of (ProposerListCreateAPIView.view (project := Fixture.project)
                   "pycon-2024" (Fixture.request GET AnonymousUser) 100
                   Fixture.store)
      = Response_ (Array (Fixture.render_session <$> draft)) status.HTTP_200_OK
    ∧ response_of (SessionListAPIView.view (project := Fixture.project)
                     "pycon-2024" (Fixture.request GET AnonymousUser) 100
                     Fixture.store)
      = Response_ (Array (Fixture.render_session <$> accepted))
          status.HTTP_200_OK
    ∧ response_of (DeniedSessionListAPIView.view (project := Fixture.project)
                     "pycon-2024" (Fixture.request GET AnonymousUser) 100
                     Fixture.store)
      = Response_ (Array (Fixture.render_session <$> denied)) status.HTTP_200_OK
    ∧ (∀ x, x ∈ draft ++ accepted ++ denied ↔
            x ∈ sessions Fixture.store ∧ session_events x = 1)
    ∧ (∀ x, x ∈ draft → x ∉ accepted)
    ∧ (∀ x, x ∈ draft → x ∉ denied)
    ∧ (∀ x, x ∈ accepted → x ∉ denied).
Proof.
  apply (session_listings_partition (project := Fixture.project)
           (Fixture.request GET AnonymousUser) 100 Fixture.store Fixture.pycon).
  - reflexivity.
  - reflexivity.
  - refine (bool_decide_unpack _ _). vm_compute. exact I.
  - refine (bool_decide_unpack _ _). vm_compute. exact I.
  - refine (bool_decide_unpack _ _). vm_compute. exact I.
Defined.

(** The listings of the sample store. *)
Example pycon_drafts :
  qs_rows (session_filter_queryset (Fixture.request GET AnonymousUser)
             (ProposerListCreateAPIView.get_queryset "pycon-2024"))
    Fixture.store
  = [Fixture.talk 1 "typing" "Draft" Fixture.pycon].
Proof. vm_compute. reflexivity. Qed.

(** The views compare strings: a row whose status were none of the three
    choices would be in no listing, which is why the partition is stated
    for stores that respect the choices. *)
Example session_of_no_listing :
  let stray := Fixture.talk 5 "keynote" "Waiting" Fixture.pycon in
  let st := with_session Fixture.store stray in
  let listing qs :=
    qs_rows (session_filter_queryset (Fixture.request GET AnonymousUser) qs) st in
  stray ∈ sessions st
  ∧ stray ∉ listing (ProposerListCreateAPIView.get_queryset "pycon-2024")
            ++ listing (SessionListAPIView.get_queryset "pycon-2024")
            ++ listing (DeniedSessionListAPIView.get_queryset "pycon-2024").
Proof.
  split; refine (bool_decide_unpack _ _); vm_compute; exact I.
Qed.

(** ** C6: changing and deleting an event *)

(** An authenticated request passes the view-level checks of the classes
    used in [views.py]. *)
Lemma authenticated_has_permission request id :
  user request = AuthUser id →
  forallb (λ p, has_permission p request)
    EventRetrieveUpdateDestroyAPIView.permission_classes = true.
Proof. intros Hu. cbn. rewrite Hu. cbn. by rewrite orb_true_r. Qed.

(** [get_object] on the event view, once the slug has found its row. *)
Lemma event_get_object st request e :
  event_slugs_unique st → e ∈ events st →
  get_object EventRetrieveUpdateDestroyAPIView.permission_classes
    EventRetrieveUpdateDestroyAPIView.queryset (slug_is (event_slug e))
    request st =
    (if bool_decide (method request ∈ SAFE_METHODS)
        || user_is (hosted_by e) (user request)
     then Ok e
     else Raise (API (if is_authenticated (user request)
                      then exceptions.PermissionDenied
                      else exceptions.NotAuthenticated)),
     st,
     [SQL_SELECT event_table; SQL_SELECT organizers_table;
      SQL_SELECT tags_table]).
Proof.
  intros Hu He. unfold get_object. unfold mbind at 1. unfold ORM_bind.
  rewrite get_object_or_404_rows.
  change (qs_rows (qs_filter (slug_is (event_slug e))
                     EventRetrieveUpdateDestroyAPIView.queryset) st)
    with (qs_rows (qs_filter (slug_is (event_slug e)) Event_objects) st).
  rewrite event_rows_found by done.
  unfold check_object_permissions, permission_denied. cbn.
  destruct (_ || _); cbn; [done|].
  by destruct (is_authenticated _).
Qed.

Lemma event_PATCH {project : Project} request now st e id :
  method request = PATCH → user request = AuthUser id →
  event_slugs_unique st → e ∈ events st →
  EventRetrieveUpdateDestroyAPIView.view (event_slug e) request now st =
    if decide (hosted_by e = id) then
      match EventCreateUpdateSerializer_update st e true (data request) with
      | Some v =>
          let row := set_event_pk (event_pk e) v in
          (Response_ (Object (EventCreateUpdateSerializer row))
             status.HTTP_200_OK,
           with_event st row,
           [SQL_SELECT event_table; SQL_SELECT organizers_table;
            SQL_SELECT tags_table; SQL_UPDATE event_table])
      | None =>
          (Response_
             (Object (EventCreateUpdateSerializer_errors st (data request)))
             status.HTTP_400_BAD_REQUEST, st,
           [SQL_SELECT event_table; SQL_SELECT organizers_table;
            SQL_SELECT tags_table])
      end
    else
      (error_response exceptions.PermissionDenied status.HTTP_403_FORBIDDEN,
       st,
       [SQL_SELECT event_table; SQL_SELECT organizers_table;
        SQL_SELECT tags_table]).
Proof.
  intros Hm Hu Huniq He. unfold EventRetrieveUpdateDestroyAPIView.view.
  rewrite (dispatch_handler _ _ _
             (EventRetrieveUpdateDestroyAPIView.update true request
                (event_slug e)));
    [|by apply (authenticated_has_permission _ id)|by rewrite Hm].
  unfold EventRetrieveUpdateDestroyAPIView.update.
  unfold mbind at 1. unfold ORM_bind.
  rewrite event_get_object by done.
  rewrite Hm, Hu, unsafe_methods by done. cbn.
  destruct (decide (hosted_by e = id)) as [Hh|Hh].
  - rewrite bool_decide_eq_true_2 by done. orm_unfold.
    by destruct (EventCreateUpdateSerializer_update _ _ _ _).
  - by rewrite bool_decide_eq_false_2 by done.
Qed.

Lemma event_DELETE {project : Project} request now st e id :
  method request = DELETE → user request = AuthUser id →
  event_slugs_unique st → e ∈ events st →
  EventRetrieveUpdateDestroyAPIView.view (event_slug e) request now st =
    if decide (hosted_by e = id) then
      (Response_ NoBody status.HTTP_204_NO_CONTENT, without_event st e,
       [SQL_SELECT event_table; SQL_SELECT organizers_table;
        SQL_SELECT tags_table; SQL_DELETE event_table])
    else
      (error_response exceptions.PermissionDenied status.HTTP_403_FORBIDDEN,
       st,
       [SQL_SELECT event_table; SQL_SELECT organizers_table;
        SQL_SELECT tags_table]).
Proof.
  intros Hm Hu Huniq He. unfold EventRetrieveUpdateDestroyAPIView.view.
  rewrite (dispatch_handler _ _ _
             (EventRetrieveUpdateDestroyAPIView.destroy request (event_slug e)));
    [|by apply (authenticated_has_permission _ id)|by rewrite Hm].
  unfold EventRetrieveUpdateDestroyAPIView.destroy.
  unfold mbind at 1. unfold ORM_bind.
  rewrite event_get_object by done.
  rewrite Hm, Hu, unsafe_methods by done. cbn.
  destruct (decide (hosted_by e = id)) as [Hh|Hh].
  - by rewrite bool_decide_eq_true_2 by done.
  - by rewrite bool_decide_eq_false_2 by done.
Qed.

(** The events after an [UPDATE] of the row of [e]: the new row, and the
    other rows as they were. *)
Lemma with_event_events st e row r :
  e ∈ events st → event_pk row = event_pk e →
  r ∈ events (with_event st row) ↔
  r = row ∨ (r ∈ events st ∧ event_pk r ≠ event_pk e).
Proof.
  intros He Hpk. unfold with_event; cbn. rewrite list_elem_of_fmap. split.
  - intros (y & -> & Hy). destruct (decide (event_pk y = event_pk row)) as [|Hne].
    + by left.
    + right. split; [done|]. by rewrite <- Hpk.
  - intros [->|[Hr Hne]].
    + exists e. split; [|done]. by rewrite decide_True.
    + exists r. split; [|done]. rewrite decide_False; [done|]. by rewrite Hpk.
Qed.

(** C6.  A PATCH or a DELETE on an event by an authenticated user who is not
    its host is answered 403 and changes nothing.  By the host it is let
    through: the DELETE removes the event and answers 204; the PATCH, with a
    body its serializer accepts, answers 200 and leaves the validated row,
    under the key of the event, in place of the row of the event, every
    other row of the store being as it was. *)
Theorem event_mutation_owner_only {project : Project} request now st e id :
  method request = PATCH ∨ method request = DELETE →
  user request = AuthUser id → event_slugs_unique st → e ∈ events st →
  let served :=
    EventRetrieveUpdateDestroyAPIView.view (event_slug e) request now st in
  (hosted_by e ≠ id →
     response_of served
       = error_response exceptions.PermissionDenied status.HTTP_403_FORBIDDEN
     ∧ store_of served = st)
  ∧ (hosted_by e = id →
     resp_status (response_of served) ≠ status.HTTP_403_FORBIDDEN
     ∧ (method request = DELETE →
          response_of served = Response_ NoBody status.HTTP_204_NO_CONTENT
          ∧ store_of served = without_event st e
          ∧ e ∉ events (store_of served))
     ∧ (method request = PATCH → ∀ v,
          EventCreateUpdateSerializer_update st e true (data request) = Some v →
          let row := set_event_pk (event_pk e) v in
          response_of served
            = Response_ (Object (EventCreateUpdateSerializer row))
                status.HTTP_200_OK
          ∧ store_of served = with_event st row
          ∧ row ∈ events (store_of served)
          ∧ (∀ r, r ∈ events (store_of served) ↔
                  r = row ∨ (r ∈ events st ∧ event_pk r ≠ event_pk e))
          ∧ sessions (store_of served) = sessions st
          ∧ attendees (store_of served) = attendees st)).
Proof.
  intros Hm Hu Huniq He. cbn zeta. destruct Hm as [Hm|Hm].
  - rewrite (event_PATCH _ _ _ _ id) by done. split.
    + intros Hh. by rewrite decide_False.
    + intros Hh. rewrite decide_True by done. split_and!.
      * by destruct (EventCreateUpdateSerializer_update _ _ _ _).
      * by rewrite Hm.
      * intros _ v ->. unfold store_of; cbn [fst snd].
        split_and!; [done..| | |done|done].
        -- apply (with_event_events st e); [done..|]. by left.
        -- intros r. by apply with_event_events.
  - rewrite (event_DELETE _ _ _ _ id) by done. split.
    + intros Hh. by rewrite decide_False.
    + intros Hh. rewrite decide_True by done. split_and!.
      * done.
      * intros _. split_and!; [done..|].
        unfold store_of; cbn. rewrite list_elem_of_filter. tauto.
      * by rewrite Hm.
Qed.

Lemma event_mutation_owner_only_witness :
  let view := EventRetrieveUpdateDestroyAPIView.view
                (project := Fixture.project) "pycon-2024" in
  let refused := view (Fixture.request DELETE (AuthUser 8)) 100 Fixture.store in
  let deleted := view (Fixture.request DELETE (AuthUser 7)) 100 Fixture.store in
  let patched :=
    view (Fixture.request_with PATCH (AuthUser 7)
            {[ "title" := JStr "PyCon 2025" ]}) 100 Fixture.store in
  let row :=
    {| event_pk := 1; event_title := "PyCon 2025";
       event_description := "The Python conference";
       event_slug := "pycon-2024"; event_date := 150; hosted_by := 7;
       total_guest := 300; read_time := 4 |} in
  (response_of refused
     = error_response exceptions.PermissionDenied status.HTTP_403_FORBIDDEN
   ∧ store_of refused = Fixture.store)
  ∧ (response_of deleted = Response_ NoBody status.HTTP_204_NO_CONTENT
     ∧ store_of deleted = without_event Fixture.store Fixture.pycon
     ∧ Fixture.pycon ∉ events (store_of deleted))
  ∧ (resp_status (response_of patched) ≠ status.HTTP_403_FORBIDDEN
     ∧ response_of patched
       = Response_ (Object (Fixture.render_event row)) status.HTTP_200_OK
     ∧ store_of patched = with_event Fixture.store row
     ∧ row ∈ events (store_of patched)
     ∧ (∀ r, r ∈ events (store_of patched) ↔
             r = row ∨ (r ∈ events Fixture.store ∧ event_pk r ≠ 1))
     ∧ sessions (store_of patched) = sessions Fixture.store
     ∧ attendees (store_of patched) = attendees Fixture.store).
Proof.
  assert (event_slugs_unique Fixture.store) as Huniq.
  { refine (bool_decide_unpack _ _). vm_compute. exact I. }
  assert (Fixture.pycon ∈ events Fixture.store) as He.
  { refine (bool_decide_unpack _ _). vm_compute. exact I. }
  pose proof (event_mutation_owner_only (project := Fixture.project)
                (Fixture.request DELETE (AuthUser 8)) 100 Fixture.store
                Fixture.pycon 8 (or_intror eq_refl) eq_refl Huniq He)
    as [Hrefused _].
  pose proof (event_mutation_owner_only (project := Fixture.project)
                (Fixture.request DELETE (AuthUser 7)) 100 Fixture.store
                Fixture.pycon 7 (or_intror eq_refl) eq_refl Huniq He)
    as [_ Hdeleted].
  pose proof (event_mutation_owner_only (project := Fixture.project)
                (Fixture.request_with PATCH (AuthUser 7)
                   {[ "title" := JStr "PyCon 2025" ]}) 100 Fixture.store
                Fixture.pycon 7 (or_introl eq_refl) eq_refl Huniq He)
    as [_ Hpatched].
  assert (hosted_by Fixture.pycon ≠ 8) as Hother by discriminate.
  destruct (Hdeleted eq_refl) as (_ & Hdelete & _).
  destruct (Hpatched eq_refl) as (Hlet & _ & Hpatch).
  exact (conj (Hrefused Hother)
           (conj (Hdelete eq_refl) (conj Hlet (Hpatch eq_refl _ eq_refl)))).
Defined.

(** The host's own requests on the sample store. *)
Example host_deletes_pycon :
  let served :=
    EventRetrieveUpdateDestroyAPIView.view (project := Fixture.project)
      "pycon-2024" (Fixture.request DELETE (AuthUser 7)) 100 Fixture.store in
  resp_status (response_of served) = 204
  ∧ events (store_of served) = [Fixture.djangocon].
Proof. split; vm_compute; reflexivity. Qed.

Example host_patches_pycon :
  let served :=
    EventRetrieveUpdateDestroyAPIView.view (project := Fixture.project)
      "pycon-2024" (Fixture.request_with PATCH (AuthUser 7)
                      {[ "title" := JStr "PyCon 2025" ]}) 100 Fixture.store in
  resp_status (response_of served) = 200
  ∧ event_title <$> events (store_of served) = ["PyCon 2025"; "DjangoCon"].
Proof. split; vm_compute; reflexivity. Qed.

(** ** C7: proposing a session *)

(** [perform_create] and [create] write only after the parent event has
    been found. *)
Lemma perform_create_rows request parent v st :
  ProposerListCreateAPIView.perform_create request parent v st =
    match qs_rows (qs_filter (slug_is parent) Event_objects) st with
    | [] => (Raise Http404, st, [SQL_SELECT event_table])
    | [e] =>
        match user request with
        | AuthUser id =>
            (Ok (proposed_row st id e v), with_session st (proposed_row st id e v),
             [SQL_SELECT event_table; SQL_INSERT session_table])
        | AnonymousUser => (Raise TypeError, st, [SQL_SELECT event_table])
        end
    | _ => (Raise MultipleObjectsReturned, st, [SQL_SELECT event_table])
    end.
Proof.
  unfold ProposerListCreateAPIView.perform_create.
  unfold mbind, ORM_bind. rewrite get_object_or_404_rows.
  destruct (qs_rows _ st) as [|e [|e' l]]; [done| |done].
  by destruct (user request).
Qed.

Lemma proposer_create_no_event {project : Project} request parent st :
  (∀ e, e ∈ events st → event_slug e ≠ parent) →
  ProposerListCreateAPIView.create request parent st =
    match SessionRetrieveCreateUpdateSerializer_create st (data request) with
    | Some _ => (Raise Http404, st, [SQL_SELECT event_table])
    | None =>
        (Raise (Invalid (SessionRetrieveCreateUpdateSerializer_errors st
                           (data request))), st, [])
    end.
Proof.
  intros Hno. unfold ProposerListCreateAPIView.create.
  unfold mbind at 1. unfold ORM_bind, is_valid.
  destruct (SessionRetrieveCreateUpdateSerializer_create _ _) as [v|]; [|done].
  unfold mbind, ORM_bind.
  by rewrite perform_create_rows, event_rows_missing.
Qed.

Lemma proposer_create_found {project : Project} request st e id v :
  event_slugs_unique st → e ∈ events st → user request = AuthUser id →
  SessionRetrieveCreateUpdateSerializer_create st (data request) = Some v →
  ProposerListCreateAPIView.create request (event_slug e) st =
    (Ok (Response_ (Object (SessionRetrieveCreateUpdateSerializer
                              (proposed_row st id e v)))
           status.HTTP_201_CREATED),
     with_session st (proposed_row st id e v),
     [SQL_SELECT event_table; SQL_INSERT session_table]).
Proof.
  intros Hu He Huser Hv. unfold ProposerListCreateAPIView.create.
  unfold mbind at 1. unfold ORM_bind, is_valid. rewrite Hv.
  unfold mbind, ORM_bind. rewrite perform_create_rows.
  by rewrite event_rows_found, Huser by done.
Qed.

(** C7, as stated: when no event has the slug, creation fails with 404.
    [create] validates the body before [perform_create] looks the parent
    up: under a slug no event has, the POST of an authenticated user with
    a body the serializer rejects (here one without a title, for a
    serializer that requires one) is answered 400 with the errors of the
    serializer, not 404. *)
Lemma draft_session_create_rejected_body_is_400 :
  let request := Fixture.request POST (AuthUser 9) in
  let served :=
    ProposerListCreateAPIView.view (project := Fixture.strict_project)
      "europython" request 100 Fixture.store in
  method request = POST
  ∧ (∀ e, e ∈ events Fixture.store → event_slug e ≠ "europython")
  ∧ resp_status (response_of served) ≠ status.HTTP_404_NOT_FOUND
  ∧ response_of served
    = Response_ (Object {[ "title" := JArr [JStr "This field is required."] ]})
        status.HTTP_400_BAD_REQUEST.
Proof.
  cbn zeta. split_and!.
  - reflexivity.
  - refine (proj1 (Forall_forall _ _) _).
    refine (bool_decide_unpack _ _). vm_compute. exact I.
  - vm_compute. discriminate.
  - vm_compute. reflexivity.
Qed.

(** C7.  A POST to the draft surface of an event slug.  When no event has
    the slug, no request creates a session; the request of an authenticated
    user is answered 404 when the serializer accepts its body, and 400,
    with the errors of the serializer, when it rejects it.  When an event
    has the slug, the request of an authenticated user with an accepted
    body is answered 201 and adds one session to the table, under a fresh
    key: the validated row, with [proposed_by] the requester and [events]
    that event. *)
Theorem draft_session_create {project : Project} request now st parent :
  method request = POST →
  let served := ProposerListCreateAPIView.view parent request now st in
  ((∀ e, e ∈ events st → event_slug e ≠ parent) →
     store_of served = st
     ∧ (∀ id v,
          user request = AuthUser id →
          SessionRetrieveCreateUpdateSerializer_create st (data request)
            = Some v →
          response_of served
            = error_response exceptions.NotFound status.HTTP_404_NOT_FOUND)
     ∧ (∀ id,
          user request = AuthUser id →
          SessionRetrieveCreateUpdateSerializer_create st (data request)
            = None →
          response_of served
            = Response_
                (Object (SessionRetrieveCreateUpdateSerializer_errors st
                           (data request)))
                status.HTTP_400_BAD_REQUEST))
  ∧ (∀ e id v,
       event_slugs_unique st → e ∈ events st →
       event_slug e = parent →
       user request = AuthUser id →
       SessionRetrieveCreateUpdateSerializer_create st (data request)
         = Some v →
       ∃ row,
         response_of served
           = Response_ (Object (SessionRetrieveCreateUpdateSerializer row))
               status.HTTP_201_CREATED
         ∧ sessions (store_of served) = sessions st ++ [row]
         ∧ events (store_of served) = events st
         ∧ attendees (store_of served) = attendees st
         ∧ (session_pk row ∉ session_pk <$> sessions st)
         ∧ set_session_pk (session_pk v) row = set_proposer_and_event id e v
         ∧ proposed_by row = id
         ∧ session_events row = event_pk e).
Proof.
  intros Hm. cbn zeta. unfold ProposerListCreateAPIView.view. split.
  - intros Hno. destruct (user request) as [|id] eqn:Hu.
    + rewrite dispatch_refused; [done|]. cbn. by rewrite Hm, Hu.
    + rewrite (dispatch_handler _ _ _
                 (ProposerListCreateAPIView.create request parent));
        [|cbn; rewrite Hu; cbn; by rewrite orb_true_r|by rewrite Hm].
      rewrite proposer_create_no_event by done.
      destruct (SessionRetrieveCreateUpdateSerializer_create _ _) as [v|];
        split_and!; done.
  - intros e id v Hu He Hslug Huser Hv. exists (proposed_row st id e v).
    rewrite (dispatch_handler _ _ _
               (ProposerListCreateAPIView.create request parent));
      [|cbn; rewrite Huser; cbn; by rewrite orb_true_r|by rewrite Hm].
    rewrite <- Hslug, (proposer_create_found _ _ _ id v) by done.
    split_and!; [done..|apply next_pk_fresh|by destruct v|done|done].
Qed.

Lemma draft_session_create_witness :
  let request :=
    Fixture.request_with POST (AuthUser 9) {[ "title" := JStr "decorators" ]} in
  let view := ProposerListCreateAPIView.view (project := Fixture.strict_project) in
  (store_of (view "europython" request 100 Fixture.store) = Fixture.store
   ∧ response_of (view "europython" request 100 Fixture.store)
     = error_response exceptions.NotFound status.HTTP_404_NOT_FOUND
   ∧ response_of (view "europython" (Fixture.request POST (AuthUser 9)) 100
                    Fixture.store)
     = Response_ (Object {[ "title" := JArr [JStr "This field is required."] ]})
         status.HTTP_400_BAD_REQUEST)
  ∧ ∃ row,
      response_of (view "pycon-2024" request 100 Fixture.store)
        = Response_ (Object (Fixture.render_session row))
            status.HTTP_201_CREATED
      ∧ sessions (store_of (view "pycon-2024" request 100 Fixture.store))
        = sessions Fixture.store ++ [row]
      ∧ events (store_of (view "pycon-2024" request 100 Fixture.store))
        = events Fixture.store
      ∧ attendees (store_of (view "pycon-2024" request 100 Fixture.store))
        = attendees Fixture.store
      ∧ (session_pk row ∉ session_pk <$> sessions Fixture.store)
      ∧ set_session_pk 0 row
        = set_proposer_and_event 9 Fixture.pycon
            {| session_pk := 0; session_title := "decorators";
               session_description := ""; session_slug := "decorators";
               session_status := "Draft"; session_type := "talk";
               proposed_by := 0; session_events := 0 |}
      ∧ proposed_by row = 9
      ∧ session_events row = 1.
Proof.
  assert (∀ e, e ∈ events Fixture.store → event_slug e ≠ "europython")
    as Hmissing.
  { refine (proj1 (Forall_forall _ _) _).
    refine (bool_decide_unpack _ _). vm_compute. exact I. }
  assert (event_slugs_unique Fixture.store) as Huniq.
  { refine (bool_decide_unpack _ _). vm_compute. exact I. }
  assert (Fixture.pycon ∈ events Fixture.store) as He.
  { refine (bool_decide_unpack _ _). vm_compute. exact I. }
  intros request view.
  destruct (draft_session_create (project := Fixture.strict_project) request
              100 Fixture.store "europython" eq_refl) as [Hnone _].
  destruct (Hnone Hmissing) as (Hstore & Hresp & _).
  destruct (draft_session_create (project := Fixture.strict_project)
              (Fixture.request POST (AuthUser 9)) 100 Fixture.store
              "europython" eq_refl) as [Hnone' _].
  destruct (Hnone' Hmissing) as (_ & _ & Hrejected).
  destruct (draft_session_create (project := Fixture.strict_project) request
              100 Fixture.store "pycon-2024" eq_refl) as [_ Hfound].
  split; [split_and!|].
  - exact Hstore.
  - exact (Hresp 9 _ eq_refl eq_refl).
  - exact (Hrejected 9 eq_refl eq_refl).
  - exact (Hfound Fixture.pycon 9 _ Huniq He eq_refl eq_refl eq_refl).
Defined.

(** ** C10: a session addressed through the surface of another status *)

(** No row of another status answers to the slug of the session. *)
Lemma status_mismatch_rows st parent status_literal x :
  event_slugs_unique st → session_slugs_unique st →
  x ∈ sessions st → events__slug parent st x →
  session_status x ≠ status_literal →
  qs_rows (qs_filter (session_slug_is (session_slug x))
             (sessions_with_status status_literal parent)) st = [].
Proof.
  intros Hu Hs Hx (e & He & Hpk & Hslug) Hne. cbn.
  apply filter_no_match. intros y.
  rewrite !list_elem_of_filter. intros (Hrel & Hst & Hy) Hsl.
  destruct Hrel as (e' & He' & Hpk' & Hslug').
  assert (e' = e) as -> by
    (apply (NoDup_fmap_eq event_slug (events st)); [exact Hu|done|done|congruence]).
  unfold session_slugs_unique in Hs. rewrite Forall_forall in Hs.
  specialize (Hs x Hx). rewrite Forall_forall in Hs.
  rewrite (Hs y Hy) in Hne by congruence. by apply Hne.
Qed.

Lemma session_get_object_404 perms request st parent status_literal x :
  event_slugs_unique st → session_slugs_unique st →
  x ∈ sessions st → events__slug parent st x →
  session_status x ≠ status_literal →
  get_object perms (sessions_with_status status_literal parent)
    (session_slug_is (session_slug x)) request st =
    (Raise Http404, st, [SQL_SELECT session_table]).
Proof.
  intros. unfold get_object, mbind, ORM_bind.
  by rewrite get_object_or_404_rows, status_mismatch_rows.
Qed.

(** C10.  A session that exists under the named event with one status is
    not found through the surface of another status: the retrieve of each
    of the three surfaces answers 404, and so do the update and the delete
    of the draft surface for an authenticated requester; no request to the
    draft surface changes the store. *)
Theorem status_scoped_lookup_is_404 {project : Project}
    request now st parent x :
  event_slugs_unique st → session_slugs_unique st →
  x ∈ sessions st → events__slug parent st x →
  (session_status x ≠ "Draft" →
     let served := ProposerRetrieveUpdateDestroyAPIView.view parent
                     (session_slug x) request now st in
     store_of served = st
     ∧ (method request = GET → response_of served = not_found_response)
     ∧ (method request ∈ [PUT; PATCH; DELETE] →
        is_authenticated (user request) = true →
        response_of served = not_found_response))
  ∧ (session_status x ≠ "Accepted" → method request = GET →
     SessionRetrieveAPIView.view parent (session_slug x) request now st
       = (not_found_response, st, [SQL_SELECT session_table]))
  ∧ (session_status x ≠ "Denied" → method request = GET →
     DeniedSessionRetrieveAPIView.view parent (session_slug x) request now st
       = (not_found_response, st, [SQL_SELECT session_table])).
Proof.
  intros Hu Hs Hx Hrel. split_and!.
  - intros Hne. cbn zeta. unfold ProposerRetrieveUpdateDestroyAPIView.view.
    destruct (forallb (λ p, has_permission p request)
                ProposerRetrieveUpdateDestroyAPIView.permission_classes)
      eqn:Hperm.
    + assert (∀ h,
        h st = (Raise Http404, st, [SQL_SELECT session_table]) →
        serve request (h st) = (not_found_response, st, [SQL_SELECT session_table]))
        as Hserve by (by intros h ->).
      destruct (method request) eqn:Hm.
      * erewrite dispatch_handler; [|done|by rewrite Hm].
        rewrite Hserve; [done|].
        unfold ProposerRetrieveUpdateDestroyAPIView.retrieve, session_retrieve,
          ProposerRetrieveUpdateDestroyAPIView.get_queryset, mbind, ORM_bind.
        by rewrite session_get_object_404.
      * rewrite dispatch_no_handler; [|done|by rewrite Hm].
        split_and!; [done|done|].
        intros Hin _. apply (bool_decide_pack _) in Hin. by vm_compute in Hin.
      * erewrite dispatch_handler; [|done|by rewrite Hm].
        rewrite Hserve; [done|].
        unfold ProposerRetrieveUpdateDestroyAPIView.update,
          ProposerRetrieveUpdateDestroyAPIView.get_queryset, mbind, ORM_bind.
        by rewrite session_get_object_404.
      * erewrite dispatch_handler; [|done|by rewrite Hm].
        rewrite Hserve; [done|].
        unfold ProposerRetrieveUpdateDestroyAPIView.update,
          ProposerRetrieveUpdateDestroyAPIView.get_queryset, mbind, ORM_bind.
        by rewrite session_get_object_404.
      * erewrite dispatch_handler; [|done|by rewrite Hm].
        rewrite Hserve; [done|].
        unfold ProposerRetrieveUpdateDestroyAPIView.destroy,
          ProposerRetrieveUpdateDestroyAPIView.get_queryset, mbind, ORM_bind.
        by rewrite session_get_object_404.
    + rewrite dispatch_refused by done. split_and!; [done| |].
      * intros Hm. cbn in Hperm. by rewrite Hm, GET_is_safe in Hperm.
      * intros _ Hauth. cbn in Hperm. rewrite Hauth in Hperm.
        by rewrite orb_true_r in Hperm.
  - intros Hne Hm. unfold SessionRetrieveAPIView.view.
    erewrite dispatch_handler; [|done|by rewrite Hm].
    unfold SessionRetrieveAPIView.retrieve, session_retrieve,
      SessionRetrieveAPIView.get_queryset, mbind, ORM_bind.
    by rewrite session_get_object_404.
  - intros Hne Hm. unfold DeniedSessionRetrieveAPIView.view.
    erewrite dispatch_handler; [|done|by rewrite Hm].
    unfold DeniedSessionRetrieveAPIView.retrieve, session_retrieve,
      DeniedSessionRetrieveAPIView.get_queryset, mbind, ORM_bind.
    by rewrite session_get_object_404.
Qed.

Lemma status_scoped_lookup_is_404_witness :
  let accepted := Fixture.talk 2 "asyncio" "Accepted" Fixture.pycon in
  let served :=
    ProposerRetrieveUpdateDestroyAPIView.view (project := Fixture.project)
      "pycon-2024" "asyncio" (Fixture.request PATCH (AuthUser 9)) 100
      Fixture.store in
  accepted ∈ sessions Fixture.store
  ∧ store_of served = Fixture.store
  ∧ response_of served = not_found_response
  ∧ DeniedSessionRetrieveAPIView.view (project := Fixture.project)
      "pycon-2024" "asyncio" (Fixture.request GET AnonymousUser) 100
      Fixture.store
    = (not_found_response, Fixture.store, [SQL_SELECT session_table]).
Proof.
  intros accepted served.
  assert (accepted ∈ sessions Fixture.store) as Hin
    by (refine (bool_decide_unpack _ _); vm_compute; exact I).
  assert (event_slugs_unique Fixture.store) as Hu
    by (refine (bool_decide_unpack _ _); vm_compute; exact I).
  assert (session_slugs_unique Fixture.store) as Hs
    by (refine (bool_decide_unpack _ _); vm_compute; exact I).
  assert (events__slug "pycon-2024" Fixture.store accepted) as Hrel
    by (refine (bool_decide_unpack _ _); vm_compute; exact I).
  split; [exact Hin|].
  destruct (status_scoped_lookup_is_404 (project := Fixture.project)
              (Fixture.request PATCH (AuthUser 9)) 100 Fixture.store
              "pycon-2024" accepted Hu Hs Hin Hrel) as (Hdraft & _ & _).
  destruct (status_scoped_lookup_is_404 (project := Fixture.project)
              (Fixture.request GET AnonymousUser) 100 Fixture.store
              "pycon-2024" accepted Hu Hs Hin Hrel) as (_ & _ & Hdenied).
  destruct Hdraft as (Hstore & _ & Hresp); [discriminate|].
  split; [exact Hstore|]. split.
  - apply Hresp; [|reflexivity].
    refine (bool_decide_unpack _ _). vm_compute. exact I.
  - apply Hdenied; [discriminate|reflexivity].
Defined.

(** Through the surface of its own status the same session is served. *)
Example accepted_session_on_its_surface :
  resp_status (response_of (SessionRetrieveAPIView.view
     (project := Fixture.project) "pycon-2024" "asyncio"
     (Fixture.request GET AnonymousUser) 100 Fixture.store)) = 200.
Proof. reflexivity. Qed.

(** * Further properties *)

(** ** Computations that only read *)

Lemma reads_only_ret {A} (a : A) : reads_only (mret a).
Proof. by intros st. Qed.

Lemma reads_only_raise {A} (e : Exc) : reads_only (raise (A := A) e).
Proof. by intros st. Qed.

Lemma reads_only_bind {A B} (m : ORM A) (f : A → ORM B) :
  reads_only m → (∀ a, reads_only (f a)) → reads_only (m ≫= f).
Proof.
  intros Hm Hf st. unfold mbind, ORM_bind. specialize (Hm st).
  destruct (m st) as [[[a|e] st'] q]; cbn in *; [|done].
  destruct Hm as [-> Hq]. specialize (Hf a st).
  destruct (f a st) as [[r st''] q']; cbn in *.
  destruct Hf as [-> Hq']. by rewrite forallb_app, Hq, Hq'.
Qed.

Lemma reads_only_try_except {A} (m : ORM A) (h : Exc → ORM A) :
  reads_only m → (∀ e, reads_only (h e)) → reads_only (try_except m h).
Proof.
  intros Hm Hh st. unfold try_except. specialize (Hm st).
  destruct (m st) as [[[a|e] st'] q]; cbn in *; [done|].
  destruct Hm as [-> Hq]. specialize (Hh e st).
  destruct (h e st) as [[r st''] q']; cbn in *.
  destruct Hh as [-> Hq']. by rewrite forallb_app, Hq, Hq'.
Qed.

Lemma prefetch_queries_select {A} tables (rows : list A) :
  forallb is_select (prefetch_queries tables rows) = true.
Proof.
  unfold prefetch_queries. induction tables as [|t ts IH]; [done|].
  cbn. rewrite forallb_app, IH. by destruct rows.
Qed.

Lemma reads_only_qs_fetch {A} (qs : QuerySet A) : reads_only (qs_fetch qs).
Proof. intros st. split; [done|]. apply prefetch_queries_select. Qed.

Lemma reads_only_qs_get {A} (qs : QuerySet A) : reads_only (qs_get qs).
Proof.
  apply reads_only_bind; [apply reads_only_qs_fetch|].
  intros [|? [|? ?]]; auto using reads_only_ret, reads_only_raise.
Qed.

Lemma reads_only_get_object_or_404 {A} (qs : QuerySet A) :
  reads_only (get_object_or_404 qs).
Proof.
  apply reads_only_try_except; [apply reads_only_qs_get|].
  intros []; apply reads_only_raise.
Qed.

Lemma reads_only_permission_denied {A} req :
  reads_only (permission_denied (A := A) req).
Proof. unfold permission_denied. case_match; apply reads_only_raise. Qed.

Lemma reads_only_check_permissions {A} (perms : list (Permission A)) req :
  reads_only (check_permissions perms req).
Proof.
  unfold check_permissions.
  case_match; [apply reads_only_ret|apply reads_only_permission_denied].
Qed.

Lemma reads_only_get_object {A} (perms : list (Permission A)) qs
    (lookup : A → Prop) `{∀ a, Decision (lookup a)} req :
  reads_only (get_object perms qs lookup req).
Proof.
  apply reads_only_bind; [apply reads_only_get_object_or_404|]. intros obj.
  apply reads_only_bind; [|intros; apply reads_only_ret].
  unfold check_object_permissions.
  case_match; [apply reads_only_ret|apply reads_only_permission_denied].
Qed.

Lemma reads_only_list_rows {A} (serializer : A → Dict) (qs : QuerySet A) :
  reads_only (list_rows serializer qs).
Proof.
  apply reads_only_bind; [apply reads_only_qs_fetch|].
  intros; apply reads_only_ret.
Qed.

Lemma reads_only_session_retrieve {project : Project} perms qs request slug :
  reads_only (session_retrieve perms qs request slug).
Proof.
  apply reads_only_bind; [apply reads_only_get_object|].
  intros; apply reads_only_ret.
Qed.

Lemma reads_only_event_list {project : Project} import_time request :
  reads_only (EventListCreateAPIView.list import_time request).
Proof.
  apply reads_only_bind; [|intros; apply reads_only_list_rows].
  apply reads_only_bind; [|intros; apply reads_only_ret].
  unfold DjangoFilterBackend.
  case_match; [apply reads_only_ret|apply reads_only_raise].
Qed.

Lemma reads_only_event_retrieve {project : Project} request slug now :
  reads_only (EventRetrieveUpdateDestroyAPIView.retrieve request slug now).
Proof.
  apply reads_only_bind.
  { apply reads_only_try_except; [apply reads_only_qs_get|].
    intros; apply reads_only_raise. }
  intros event. apply reads_only_bind; [|intros; apply reads_only_ret].
  destruct (is_authenticated (user request)); [|apply reads_only_ret].
  apply reads_only_bind.
  - unfold filter_user. case_match; [apply reads_only_raise|apply reads_only_ret].
  - intros mine. apply reads_only_bind; [apply reads_only_qs_fetch|].
    intros; apply reads_only_ret.
Qed.

Lemma reads_only_attendee_list {lists : ProjectLists} request event_slug :
  reads_only (attendee_list request event_slug).
Proof.
  apply reads_only_bind; [apply reads_only_get_object_or_404|].
  intros; apply reads_only_list_rows.
Qed.

Lemma reads_only_speakers_list {lists : ProjectLists} request event_slug :
  reads_only (speakers_list request event_slug).
Proof.
  apply reads_only_bind; [apply reads_only_get_object_or_404|].
  intros; apply reads_only_list_rows.
Qed.

(** A view whose handler for the method of the request only reads, only
    reads. *)
Lemma dispatch_reads_only {A} (perms : list (Permission A)) handlers req st :
  (∀ h, handlers (method req) = Some h → reads_only h) →
  store_of (dispatch perms handlers req st) = st
  ∧ forallb is_select (queries_of (dispatch perms handlers req st)) = true.
Proof.
  intros Hh. unfold dispatch.
  match goal with
  | |- context [serve req ?r] =>
      assert (r.1.2 = st ∧ forallb is_select r.2 = true) as Hro;
        [|by destruct r as [[[?|?] ?] ?]]
  end.
  apply (reads_only_bind (check_permissions perms req));
    [apply reads_only_check_permissions|]. intros _.
  destruct (handlers (method req)) as [h|]; [by apply Hh|].
  apply reads_only_raise.
Qed.

(** ** X1, X2: what a request never does *)

(** X1.  A GET request to any view leaves the store as it was and issues
    nothing but [SELECT] statements, whoever sends it and whatever the URL
    parameters and the query string are. *)
Theorem GET_never_writes {project : Project} {lists : ProjectLists}
    import_time event_slug slug (v : View) request now st :
  v ∈ all_views import_time event_slug slug → method request = GET →
  store_of (v request now st) = st
  ∧ forallb is_select (queries_of (v request now st)) = true.
Proof.
  intros Hv Hm. unfold all_views, writing_views, read_only_views in Hv.
  cbn in Hv. repeat (apply elem_of_cons in Hv as [->|Hv]);
    [..|by apply elem_of_nil in Hv];
    apply dispatch_reads_only; intros h; rewrite Hm;
    try (unfold api_view; case_decide; [try discriminate|done]);
    intros [= <-].
  - apply reads_only_event_list.
  - apply reads_only_event_retrieve.
  - apply reads_only_list_rows.
  - apply reads_only_session_retrieve.
  - apply reads_only_list_rows.
  - apply reads_only_session_retrieve.
  - apply reads_only_list_rows.
  - apply reads_only_session_retrieve.
  - apply reads_only_attendee_list.
  - apply reads_only_speakers_list.
Qed.

Lemma GET_never_writes_witness :
  let served :=
    EventRetrieveUpdateDestroyAPIView.view (project := Fixture.project)
      "pycon-2024" (Fixture.request GET (AuthUser 8)) 100 Fixture.store in
  store_of served = Fixture.store
  ∧ forallb is_select (queries_of served) = true.
Proof.
  apply (GET_never_writes (project := Fixture.project)
           (lists := FixtureLists.lists) 50 "pycon-2024" "asyncio").
  - unfold all_views, writing_views. cbn.
    apply list_elem_of_further, list_elem_of_further, list_elem_of_here.
  - reflexivity.
Defined.

(** X2.  The accepted and the denied session surfaces, the attendee list
    and the speakers list are read-only: no request to them changes the
    store, and a POST, PUT, PATCH or DELETE is answered 405, with a detail
    that names the method, without a query. *)
Theorem read_only_surfaces {project : Project} {lists : ProjectLists}
    event_slug slug (v : View) request now st :
  v ∈ read_only_views event_slug slug →
  store_of (v request now st) = st
  ∧ forallb is_select (queries_of (v request now st)) = true
  ∧ (method request ∈ [POST; PUT; PATCH; DELETE] →
     v request now st =
       (error_response
          (exceptions.MethodNotAllowed (method_name (method request)))
          status.HTTP_405_METHOD_NOT_ALLOWED, st, [])).
Proof.
  intros Hv. unfold read_only_views in Hv.
  repeat (apply elem_of_cons in Hv as [->|Hv]); [..|by apply elem_of_nil in Hv].
  all: split_and!;
    [apply dispatch_reads_only | apply dispatch_reads_only
    | intros Hm%writing_method_not_GET; apply dispatch_no_handler; [done|];
      unfold api_view; try case_decide; by destruct (method request)].
  all: intros h; unfold api_view; try case_decide;
    destruct (method request); try done; intros [= <-].
  all: first [ apply reads_only_list_rows | apply reads_only_session_retrieve
             | apply reads_only_attendee_list | apply reads_only_speakers_list ].
Qed.

Lemma read_only_surfaces_witness :
  let served :=
    speakers_list_view (lists := FixtureLists.lists) "pycon-2024"
      (Fixture.request DELETE (AuthUser 7)) 100 Fixture.store in
  store_of served = Fixture.store
  ∧ forallb is_select (queries_of served) = true
  ∧ served = (error_response (exceptions.MethodNotAllowed "DELETE")
                status.HTTP_405_METHOD_NOT_ALLOWED, Fixture.store, []).
Proof.
  destruct (read_only_surfaces (project := Fixture.project)
              (lists := FixtureLists.lists) "pycon-2024" "asyncio"
              (speakers_list_view (lists := FixtureLists.lists) "pycon-2024")
              (Fixture.request DELETE (AuthUser 7)) 100 Fixture.store)
    as (Hstore & Hreads & Hrefused).
  { unfold read_only_views.
    do 5 apply list_elem_of_further. apply list_elem_of_here. }
  split_and!; [exact Hstore|exact Hreads|].
  apply Hrefused. refine (bool_decide_unpack _ _). vm_compute. exact I.
Defined.

(** The detail of the refusal, as DRF words it. *)
Example method_not_allowed_detail :
  detail (exceptions.MethodNotAllowed (method_name DELETE))
  = String.concat quote ["Method "; "DELETE"; " not allowed."].
Proof. reflexivity. Qed.

(** X3.  An unauthenticated POST, PUT, PATCH or DELETE is turned away by
    every view that can write, before any query: the response is that of
    [NotAuthenticated] (401, or 403 when no [WWW-Authenticate] header can
    be sent) and the store is untouched. *)
Theorem anonymous_write_refused {project : Project}
    import_time event_slug slug (v : View) request now st :
  v ∈ writing_views import_time event_slug slug →
  user request = AnonymousUser →
  method request ∈ [POST; PUT; PATCH; DELETE] →
  v request now st =
    (error_response exceptions.NotAuthenticated
       (if www_authenticate request then status.HTTP_401_UNAUTHORIZED
        else status.HTTP_403_FORBIDDEN), st, []).
Proof.
  intros Hv Hu Hm%writing_method_not_GET. unfold writing_views in Hv.
  repeat (apply elem_of_cons in Hv as [->|Hv]); [..|by apply elem_of_nil in Hv].
  all: unfold sign_up_to_event_view, EventListCreateAPIView.view,
    EventRetrieveUpdateDestroyAPIView.view, ProposerListCreateAPIView.view,
    ProposerRetrieveUpdateDestroyAPIView.view.
  all: rewrite dispatch_refused;
    [rewrite Hu; cbn; by destruct (www_authenticate request)
    |cbn; by rewrite Hu, ?unsafe_methods].
Qed.

Lemma anonymous_write_refused_witness :
  ProposerListCreateAPIView.view (project := Fixture.project) "pycon-2024"
    (Fixture.request POST AnonymousUser) 100 Fixture.store =
    (error_response exceptions.NotAuthenticated status.HTTP_401_UNAUTHORIZED,
     Fixture.store, []).
Proof.
  apply (anonymous_write_refused (project := Fixture.project)
           50 "pycon-2024" "typing").
  - unfold writing_views.
    do 3 apply list_elem_of_further. apply list_elem_of_here.
  - reflexivity.
  - refine (bool_decide_unpack _ _). vm_compute. exact I.
Defined.

(** ** X4: creating an event *)

(** X4.  A POST to the event list by an authenticated user, with a body the
    serializer accepts, is answered 201 and adds exactly one event, at the
    end of the table, the other tables being as they were; the new event is
    hosted by the requester, whatever host the serializer had put in, its
    primary key is new, and its other columns are the serializer's.  A body
    the serializer rejects is answered 400 with the errors of the
    serializer, and adds nothing. *)
Theorem event_create_sets_host {project : Project}
    import_time request now st id :
  method request = POST → user request = AuthUser id →
  let served := EventListCreateAPIView.view import_time request now st in
  (∀ v, EventCreateUpdateSerializer_create st (data request) = Some v →
     ∃ row,
       response_of served
         = Response_ (Object (EventCreateUpdateSerializer row))
             status.HTTP_201_CREATED
       ∧ events (store_of served) = events st ++ [row]
       ∧ sessions (store_of served) = sessions st
       ∧ attendees (store_of served) = attendees st
       ∧ hosted_by row = id
       ∧ (event_pk row ∉ event_pk <$> events st)
       ∧ set_event_pk 0 (set_hosted_by 0 row)
         = set_event_pk 0 (set_hosted_by 0 v))
  ∧ (EventCreateUpdateSerializer_create st (data request) = None →
     response_of served
       = Response_
           (Object (EventCreateUpdateSerializer_errors st (data request)))
           status.HTTP_400_BAD_REQUEST
     ∧ store_of served = st).
Proof.
  intros Hm Hu. cbn zeta. unfold EventListCreateAPIView.view.
  rewrite (dispatch_handler _ _ _ (EventListCreateAPIView.create request));
    [|cbn; rewrite Hu; cbn; by rewrite orb_true_r|by rewrite Hm].
  unfold EventListCreateAPIView.create, EventListCreateAPIView.perform_create.
  rewrite Hu. orm_unfold. unfold Event_insert. split.
  - intros v ->. eexists. split_and!; [reflexivity|done..| |done].
    apply next_pk_fresh.
  - by intros ->.
Qed.

Lemma event_create_sets_host_witness :
  let view := EventListCreateAPIView.view (project := Fixture.strict_project) 50 in
  let created :=
    view (Fixture.request_with POST (AuthUser 9)
            {[ "title" := JStr "EuroPython" ]}) 100 Fixture.store in
  let rejected := view (Fixture.request POST (AuthUser 9)) 100 Fixture.store in
  (∃ row,
     response_of created
       = Response_ (Object (Fixture.render_event row)) status.HTTP_201_CREATED
     ∧ events (store_of created) = events Fixture.store ++ [row]
     ∧ sessions (store_of created) = sessions Fixture.store
     ∧ attendees (store_of created) = attendees Fixture.store
     ∧ hosted_by row = 9
     ∧ (event_pk row ∉ event_pk <$> events Fixture.store)
     ∧ event_title row = "EuroPython")
  ∧ response_of rejected
    = Response_ (Object {[ "title" := JArr [JStr "This field is required."] ]})
        status.HTTP_400_BAD_REQUEST
  ∧ store_of rejected = Fixture.store.
Proof.
  destruct (event_create_sets_host (project := Fixture.strict_project) 50
              (Fixture.request_with POST (AuthUser 9)
                 {[ "title" := JStr "EuroPython" ]}) 100 Fixture.store 9
              eq_refl eq_refl) as [Hvalid _].
  destruct (event_create_sets_host (project := Fixture.strict_project) 50
              (Fixture.request POST (AuthUser 9)) 100 Fixture.store 9
              eq_refl eq_refl) as [_ Hinvalid].
  destruct (Hvalid _ eq_refl)
    as (row & Hresp & Hev & Hse & Hat & Hhost & Hpk & Hcols).
  split; [|exact (Hinvalid eq_refl)].
  exists row. split_and!; try assumption.
  exact (f_equal event_title Hcols).
Defined.

(** ** X5: the keys of a retrieved event *)

(** X5.  The dictionary of a retrieved event echoes whether the request is
    authenticated under [is_authenticated], and passes on every key of the
    serializer but the three it sets itself. *)
Theorem retrieve_keys {project : Project} request now st e :
  method request = GET → event_slugs_unique st → e ∈ events st →
  ∃ d,
    response_of (EventRetrieveUpdateDestroyAPIView.view (event_slug e)
                   request now st)
      = Response_ (Object d) status.HTTP_200_OK
    ∧ d !! "is_authenticated"
      = Some (JBool (is_authenticated (user request)))
    ∧ (∀ k, k ∉ ["has_sign_up"; "event_is_open"; "is_authenticated"] →
            d !! k = EventRetrieveSerializer e !! k).
Proof.
  intros Hm Hu He. rewrite event_retrieve_view_found by done.
  eexists. split; [reflexivity|]. unfold retrieve_data. split.
  - apply lookup_insert_eq.
  - intros k Hk. rewrite !lookup_insert_ne; [done|..];
      intros <-; apply Hk; set_solver.
Qed.

Lemma retrieve_keys_witness :
  ∃ d,
    response_of (EventRetrieveUpdateDestroyAPIView.view
                   (project := Fixture.project) "pycon-2024"
                   (Fixture.request GET AnonymousUser) 100 Fixture.store)
      = Response_ (Object d) status.HTTP_200_OK
    ∧ d !! "is_authenticated" = Some (JBool false)
    ∧ (∀ k, k ∉ ["has_sign_up"; "event_is_open"; "is_authenticated"] →
            d !! k = Fixture.render_event Fixture.pycon !! k).
Proof.
  apply (retrieve_keys (project := Fixture.project)
           (Fixture.request GET AnonymousUser) 100 Fixture.store Fixture.pycon).
  - reflexivity.
  - refine (bool_decide_unpack _ _). vm_compute. exact I.
  - refine (bool_decide_unpack _ _). vm_compute. exact I.
Defined.

(** ** X6, X7, X8: the attendees of an event *)

Lemma attendee_list_GET {lists : ProjectLists} event_slug request now st :
  method request = GET →
  attendee_list_view event_slug request now st =
    serve request (attendee_list request event_slug st).
Proof.
  intros Hm. unfold attendee_list_view.
  apply dispatch_handler; [done|]. unfold api_view. by rewrite Hm, decide_True.
Qed.

Lemma attendee_list_rows {lists : ProjectLists} request event_slug st :
  attendee_list request event_slug st =
    match qs_rows (qs_filter (slug_is event_slug) Event_objects) st with
    | [] => (Raise Http404, st, [SQL_SELECT event_table])
    | [e] =>
        (Ok (Response_
               (Array (AttendeeSerializer <$>
                         filter (attendee_events_is e) (attendees st)))
               status.HTTP_200_OK),
         st, [SQL_SELECT event_table; SQL_SELECT attendee_table])
    | _ => (Raise MultipleObjectsReturned, st, [SQL_SELECT event_table])
    end.
Proof.
  unfold attendee_list, mbind, ORM_bind. rewrite get_object_or_404_rows.
  by destruct (qs_rows _ st) as [|e [|e' l]].
Qed.

(** X6.  The attendee list of a slug without an event is answered 404; that
    of an event is answered 200 with the attendee rows of that event, and
    only those, whoever asks. *)
Theorem attendee_list_of_event {lists : ProjectLists}
    request now st parent :
  method request = GET →
  let served := attendee_list_view parent request now st in
  ((∀ e, e ∈ events st → event_slug e ≠ parent) →
     served = (not_found_response, st, [SQL_SELECT event_table]))
  ∧ (∀ e, event_slugs_unique st → e ∈ events st →
          event_slug e = parent →
     ∃ rows,
       served =
         (Response_ (Array (AttendeeSerializer <$> rows)) status.HTTP_200_OK,
          st, [SQL_SELECT event_table; SQL_SELECT attendee_table])
       ∧ ∀ a, a ∈ rows ↔ a ∈ attendees st ∧ attendee_events a = event_pk e).
Proof.
  intros Hm. cbn zeta. rewrite attendee_list_GET, attendee_list_rows by done.
  split.
  - intros Hno. by rewrite event_rows_missing.
  - intros e Hu He <-. rewrite event_rows_found by done.
    eexists. split; [reflexivity|]. intros a.
    rewrite list_elem_of_filter. unfold attendee_events_is. tauto.
Qed.

Lemma attendee_list_of_event_witness :
  let request := Fixture.request GET AnonymousUser in
  attendee_list_view (lists := FixtureLists.lists) "europython" request 100
    Fixture.store = (not_found_response, Fixture.store, [SQL_SELECT event_table])
  ∧ ∃ rows,
      attendee_list_view (lists := FixtureLists.lists) "pycon-2024" request 100
        Fixture.store =
        (Response_ (Array (FixtureLists.render_attendee <$> rows))
           status.HTTP_200_OK,
         Fixture.store, [SQL_SELECT event_table; SQL_SELECT attendee_table])
      ∧ ∀ a, a ∈ rows ↔ a ∈ attendees Fixture.store ∧ attendee_events a = 1.
Proof.
  intros request. split.
  - destruct (attendee_list_of_event (lists := FixtureLists.lists) request 100
                Fixture.store "europython" eq_refl) as [Hmissing _].
    apply Hmissing. refine (proj1 (Forall_forall _ _) _).
    refine (bool_decide_unpack _ _). vm_compute. exact I.
  - destruct (attendee_list_of_event (lists := FixtureLists.lists) request 100
                Fixture.store "pycon-2024" eq_refl) as [_ Hfound].
    apply (Hfound Fixture.pycon).
    + refine (bool_decide_unpack _ _). vm_compute. exact I.
    + refine (bool_decide_unpack _ _). vm_compute. exact I.
    + reflexivity.
Defined.

(** X7.  A successful signup shows in the attendee list of the event: the
    list after it is the list before it with the new row at the end. *)
Theorem sign_up_then_listed {lists : ProjectLists}
    request request' now now' st e id :
  method request = POST → user request = AuthUser id →
  method request' = GET →
  event_slugs_unique st → e ∈ events st → hosted_by e ≠ id →
  signups st id e = [] →
  let st' := store_of (sign_up_to_event_view (event_slug e) request now st) in
  ∃ rows,
    response_of (attendee_list_view (event_slug e) request' now' st)
      = Response_ (Array (AttendeeSerializer <$> rows)) status.HTTP_200_OK
    ∧ response_of (attendee_list_view (event_slug e) request' now' st')
      = Response_ (Array (AttendeeSerializer <$> rows ++ [signup_row st id e]))
          status.HTTP_200_OK.
Proof.
  intros Hm Hu Hm' Huniq He Hhost Hnone. cbn zeta.
  rewrite (sign_up_fresh _ _ _ _ id) by done. unfold store_of at 1; cbn.
  rewrite !attendee_list_GET, !attendee_list_rows by done.
  rewrite !event_rows_found by done.
  exists (filter (attendee_events_is e) (attendees st)).
  split; [done|]. cbn. rewrite filter_app.
  by rewrite (filter_cons_True (attendee_events_is e)).
Qed.

Lemma sign_up_then_listed_witness :
  let st' := store_of (sign_up_to_event_view "djangocon"
                         (Fixture.request POST (AuthUser 9)) 100
                         Fixture.store) in
  ∃ rows,
    response_of (attendee_list_view (lists := FixtureLists.lists) "djangocon"
                   (Fixture.request GET AnonymousUser) 101 Fixture.store)
      = Response_ (Array (FixtureLists.render_attendee <$> rows))
          status.HTTP_200_OK
    ∧ response_of (attendee_list_view (lists := FixtureLists.lists) "djangocon"
                     (Fixture.request GET AnonymousUser) 101 st')
      = Response_ (Array (FixtureLists.render_attendee <$>
                            rows ++ [signup_row Fixture.store 9
                                       Fixture.djangocon]))
          status.HTTP_200_OK.
Proof.
  apply (sign_up_then_listed (lists := FixtureLists.lists)
           (Fixture.request POST (AuthUser 9))
           (Fixture.request GET AnonymousUser) 100 101 Fixture.store
           Fixture.djangocon 9).
  - reflexivity.
  - reflexivity.
  - reflexivity.
  - refine (bool_decide_unpack _ _). vm_compute. exact I.
  - refine (bool_decide_unpack _ _). vm_compute. exact I.
  - discriminate.
  - vm_compute. reflexivity.
Defined.

(** X8.  A successful signup turns the [has_sign_up] of the event, as the
    user retrieves it, from false to true. *)
Theorem sign_up_then_retrieve {project : Project}
    request request' now now' st e id :
  method request = POST → user request = AuthUser id →
  method request' = GET → user request' = AuthUser id →
  event_slugs_unique st → e ∈ events st → hosted_by e ≠ id →
  signups st id e = [] →
  let st' := store_of (sign_up_to_event_view (event_slug e) request now st) in
  ∃ d d',
    response_of (EventRetrieveUpdateDestroyAPIView.view (event_slug e)
                   request' now' st)
      = Response_ (Object d) status.HTTP_200_OK
    ∧ d !! "has_sign_up" = Some (JBool false)
    ∧ response_of (EventRetrieveUpdateDestroyAPIView.view (event_slug e)
                     request' now' st')
      = Response_ (Object d') status.HTTP_200_OK
    ∧ d' !! "has_sign_up" = Some (JBool true).
Proof.
  intros Hm Hu Hm' Hu' Huniq He Hhost Hnone.
  destruct (sign_up_twice request now now st e id Hm Hu Huniq He Hhost Hnone)
    as [Hrow _].
  cbn zeta in *. revert Hrow.
  rewrite (sign_up_fresh _ _ _ _ id) by done. unfold store_of; cbn [fst snd].
  intros Hrow. rewrite !event_retrieve_view_found by done.
  eexists _, _. split; [reflexivity|]. split; [|split; [reflexivity|]].
  - unfold retrieve_data, signed_up. rewrite !lookup_insert_ne by done.
    by rewrite lookup_insert_eq, Hu', Hnone.
  - unfold retrieve_data, signed_up. rewrite !lookup_insert_ne by done.
    by rewrite lookup_insert_eq, Hu', Hrow.
Qed.

Lemma sign_up_then_retrieve_witness :
  let st' := store_of (sign_up_to_event_view "djangocon"
                         (Fixture.request POST (AuthUser 9)) 100
                         Fixture.store) in
  ∃ d d',
    response_of (EventRetrieveUpdateDestroyAPIView.view
                   (project := Fixture.project) "djangocon"
                   (Fixture.request GET (AuthUser 9)) 101 Fixture.store)
      = Response_ (Object d) status.HTTP_200_OK
    ∧ d !! "has_sign_up" = Some (JBool false)
    ∧ response_of (EventRetrieveUpdateDestroyAPIView.view
                     (project := Fixture.project) "djangocon"
                     (Fixture.request GET (AuthUser 9)) 101 st')
      = Response_ (Object d') status.HTTP_200_OK
    ∧ d' !! "has_sign_up" = Some (JBool true).
Proof.
  apply (sign_up_then_retrieve (project := Fixture.project)
           (Fixture.request POST (AuthUser 9))
           (Fixture.request GET (AuthUser 9)) 100 101 Fixture.store
           Fixture.djangocon 9).
  - reflexivity.
  - reflexivity.
  - reflexivity.
  - reflexivity.
  - refine (bool_decide_unpack _ _). vm_compute. exact I.
  - refine (bool_decide_unpack _ _). vm_compute. exact I.
  - discriminate.
  - vm_compute. reflexivity.
Defined.

(** ** X9: the invariants of the attendee table *)




(** The signup of the witness does add a row. *)
Example sign_up_in_sample_store :
  length (attendees (store_of (sign_up_to_event_view "djangocon"
            (Fixture.request POST (AuthUser 9)) 100 FixtureLists.store)))
  = 3%nat.
Proof. reflexivity. Qed.

(** ** X10, X11: the speakers of an event, and unknown events *)

Lemma speakers_list_GET {lists : ProjectLists} event_slug request now st :
  method request = GET →
  speakers_list_view event_slug request now st =
    serve request (speakers_list request event_slug st).
Proof.
  intros Hm. unfold speakers_list_view.
  apply dispatch_handler; [done|]. unfold api_view. by rewrite Hm, decide_True.
Qed.

Lemma speakers_list_rows {lists : ProjectLists} request event_slug st :
  speakers_list request event_slug st =
    match qs_rows (qs_filter (slug_is event_slug) Event_objects) st with
    | [] => (Raise Http404, st, [SQL_SELECT event_table])
    | [e] =>
        (Ok (Response_
               (Array (SpeakerSerializer <$>
                         filter (status_is "Accepted")
                           (filter (session_events_is e) (sessions st))))
               status.HTTP_200_OK),
         st, [SQL_SELECT event_table; SQL_SELECT session_table])
    | _ => (Raise MultipleObjectsReturned, st, [SQL_SELECT event_table])
    end.
Proof.
  unfold speakers_list, mbind, ORM_bind. rewrite get_object_or_404_rows.
  by destruct (qs_rows _ st) as [|e [|e' l]].
Qed.

Lemma filter_swap_iff {A} (P Q R : A → Prop) `{∀ a, Decision (P a)}
    `{∀ a, Decision (Q a)} `{∀ a, Decision (R a)} (l : list A) :
  (∀ a, P a ↔ R a) → filter P (filter Q l) = filter Q (filter R l).
Proof.
  intros Hiff. induction l as [|a l IH]; [done|].
  rewrite (filter_cons Q), (filter_cons R).
  destruct (decide (Q a)) as [HQ|HQ], (decide (R a)) as [HR|HR];
    rewrite ?filter_cons; repeat case_decide; rewrite ?IH; try done;
    destruct (Hiff a); tauto.
Qed.

(** The rows of a session list view on a request without [search=]. *)
Lemma session_listing_Permutation request status_literal parent st :
  search_param (query_params request) = [] →
  qs_rows (session_filter_queryset request
             (sessions_with_status status_literal parent)) st
  ≡ₚ filter (events__slug parent st)
       (filter (status_is status_literal) (sessions st)).
Proof.
  intros Hs. unfold session_filter_queryset, filters.SearchFilter.
  rewrite Hs. cbn. unfold filters.OrderingFilter.
  destruct (filters.get_ordering _ _ _) as [|t ts]; cbn;
    by rewrite ?merge_sort_Permutation.
Qed.

(** X10.  The speakers list of an event renders the sessions of the event
    whose status is Accepted: the same rows, up to their order, as the
    accepted session list of the event renders. *)
Theorem speakers_are_accepted_sessions {project : Project}
    {lists : ProjectLists} request now st e :
  method request = GET → search_param (query_params request) = [] →
  event_slugs_unique st → e ∈ events st →
  ∃ speakers accepted,
    speakers_list_view (event_slug e) request now st =
      (Response_ (Array (SpeakerSerializer <$> speakers)) status.HTTP_200_OK,
       st, [SQL_SELECT event_table; SQL_SELECT session_table])
    ∧ response_of (SessionListAPIView.view (event_slug e) request now st)
      = Response_ (Array (SessionListSerializer <$> accepted))
          status.HTTP_200_OK
    ∧ speakers ≡ₚ accepted
    ∧ (∀ x, x ∈ speakers ↔
            x ∈ sessions st ∧ session_events x = event_pk e
            ∧ session_status x = "Accepted").
Proof.
  intros Hm Hs Hu He.
  rewrite speakers_list_GET, speakers_list_rows, event_rows_found by done.
  rewrite accepted_list_GET by done.
  eexists _, _. split; [reflexivity|]. split; [reflexivity|]. split.
  - unfold SessionListAPIView.get_queryset.
    rewrite session_listing_Permutation by done.
    rewrite (filter_swap_iff (events__slug (event_slug e) st)
               (status_is "Accepted") (session_events_is e)); [done|].
    intros x. by apply events__slug_of_event.
  - intros x. rewrite !list_elem_of_filter.
    unfold status_is, session_events_is. tauto.
Qed.

Lemma speakers_are_accepted_sessions_witness :
  ∃ speakers accepted,
    speakers_list_view (lists := FixtureLists.lists) "pycon-2024"
      (Fixture.request GET AnonymousUser) 100 Fixture.store =
      (Response_ (Array (FixtureLists.render_speaker <$> speakers))
         status.HTTP_200_OK,
       Fixture.store, [SQL_SELECT event_table; SQL_SELECT session_table])
    ∧ response_of (SessionListAPIView.view (project := Fixture.project)
                     "pycon-2024" (Fixture.request GET AnonymousUser) 100
                     Fixture.store)
      = Response_ (Array (Fixture.render_session <$> accepted))
          status.HTTP_200_OK
    ∧ speakers ≡ₚ accepted
    ∧ (∀ x, x ∈ speakers ↔
            x ∈ sessions Fixture.store ∧ session_events x = 1
            ∧ session_status x = "Accepted").
Proof.
  apply (speakers_are_accepted_sessions (project := Fixture.project)
           (lists := FixtureLists.lists) (Fixture.request GET AnonymousUser)
           100 Fixture.store Fixture.pycon).
  - reflexivity.
  - reflexivity.
  - refine (bool_decide_unpack _ _). vm_compute. exact I.
  - refine (bool_decide_unpack _ _). vm_compute. exact I.
Defined.

Lemma session_listing_unknown_parent request status_literal parent st :
  (∀ e, e ∈ events st → event_slug e ≠ parent) →
  qs_rows (session_filter_queryset request
             (sessions_with_status status_literal parent)) st = [].
Proof.
  intros Hno.
  assert (qs_rows (sessions_with_status status_literal parent) st = [])
    as Hbase.
  { cbn. apply filter_no_match. unfold events__slug.
    intros x _ (e & He & _ & Hslug). by apply (Hno e). }
  unfold session_filter_queryset, filters.SearchFilter, filters.OrderingFilter.
  repeat case_match; cbn in *; by rewrite Hbase.
Qed.

(** X11.  For a slug that no event has, the three session list views
    answer 200 with an empty list, whatever the query string, while the
    speakers list answers 404. *)
Theorem unknown_parent_slug {project : Project} {lists : ProjectLists}
    request now st parent :
  method request = GET → (∀ e, e ∈ events st → event_slug e ≠ parent) →
  let empty := Response_ (Array []) status.HTTP_200_OK in
  response_of (ProposerListCreateAPIView.view parent request now st) = empty
  ∧ response_of (SessionListAPIView.view parent request now st) = empty
  ∧ response_of (DeniedSessionListAPIView.view parent request now st) = empty
  ∧ response_of (speakers_list_view parent request now st)
    = not_found_response.
Proof.
  intros Hm Hno. cbn zeta.
  rewrite proposer_list_GET, accepted_list_GET, denied_list_GET by done.
  unfold ProposerListCreateAPIView.get_queryset, SessionListAPIView.get_queryset,
    DeniedSessionListAPIView.get_queryset.
  rewrite !session_listing_unknown_parent by done.
  rewrite speakers_list_GET, speakers_list_rows, event_rows_missing by done.
  done.
Qed.

Lemma unknown_parent_slug_witness :
  let request := Fixture.request GET AnonymousUser in
  let empty := Response_ (Array []) status.HTTP_200_OK in
  response_of (ProposerListCreateAPIView.view (project := Fixture.project)
                 "europython" request 100 Fixture.store) = empty
  ∧ response_of (SessionListAPIView.view (project := Fixture.project)
                   "europython" request 100 Fixture.store) = empty
  ∧ response_of (DeniedSessionListAPIView.view (project := Fixture.project)
                   "europython" request 100 Fixture.store) = empty
  ∧ response_of (speakers_list_view (lists := FixtureLists.lists)
                   "europython" request 100 Fixture.store)
    = not_found_response.
Proof.
  apply (unknown_parent_slug (project := Fixture.project)
           (lists := FixtureLists.lists) (Fixture.request GET AnonymousUser)
           100 Fixture.store "europython").
  - reflexivity.
  - refine (proj1 (Forall_forall _ _) _).
    refine (bool_decide_unpack _ _). vm_compute. exact I.
Defined.

(** ** X12, X13: reaching a session *)

Lemma filter_only {A} (P : A → Prop) `{∀ a, Decision (P a)} (l : list A) x :
  NoDup l → x ∈ l → P x → (∀ y, y ∈ l → P y → y = x) → filter P l = [x].
Proof.
  induction l as [|a l IH]; intros Hnd Hx HP Honly;
    [by apply elem_of_nil in Hx|].
  apply NoDup_cons in Hnd as [Ha Hnd].
  apply elem_of_cons in Hx as [<-|Hx].
  - rewrite filter_cons_True by done. f_equal. apply filter_no_match.
    intros y Hy HPy. apply Ha.
    by rewrite <- (Honly y (list_elem_of_further _ _ _ Hy) HPy).
  - rewrite filter_cons_False.
    + apply IH; try done. intros y Hy. apply Honly. by right.
    + intros HPa. apply Ha.
      by rewrite (Honly a (list_elem_of_here _ _) HPa).
Qed.

(** The row the slug of a session finds on the surface of its status. *)
Lemma status_match_rows st parent x :
  event_slugs_unique st → session_slugs_unique st → session_pks_unique st →
  x ∈ sessions st → events__slug parent st x →
  qs_rows (qs_filter (session_slug_is (session_slug x))
             (sessions_with_status (session_status x) parent)) st = [x].
Proof.
  intros Hu Hs Hpk Hx Hrel. cbn.
  rewrite !list_filter_filter. unfold session_slug_is, status_is.
  apply filter_only; [by apply NoDup_fmap_1 in Hpk|done|done|].
  intros y Hy [[Hslug Hrel'] _].
  destruct Hrel' as (e' & He' & Hpk' & Hslug').
  destruct Hrel as (e & He & Hpke & Hsluge).
  assert (e' = e) as ->
    by (apply (NoDup_fmap_eq event_slug (events st));
        [exact Hu|done|done|congruence]).
  unfold session_slugs_unique in Hs. rewrite Forall_forall in Hs.
  specialize (Hs y Hy). rewrite Forall_forall in Hs.
  apply (Hs x Hx); [congruence|done].
Qed.

(** X12.  A GET for the slug of a stored session, under the slug of its
    event, is answered 200 with that session by the retrieve view of the
    status the session has. *)
Theorem session_served_on_its_surface {project : Project}
    request now st parent x :
  method request = GET →
  event_slugs_unique st → session_slugs_unique st → session_pks_unique st →
  x ∈ sessions st → events__slug parent st x →
  let served :=
    (Response_ (Object (SessionRetrieveCreateUpdateSerializer x))
       status.HTTP_200_OK, st, [SQL_SELECT session_table]) in
  (session_status x = "Draft" →
     ProposerRetrieveUpdateDestroyAPIView.view parent (session_slug x)
       request now st = served)
  ∧ (session_status x = "Accepted" →
     SessionRetrieveAPIView.view parent (session_slug x) request now st
       = served)
  ∧ (session_status x = "Denied" →
     DeniedSessionRetrieveAPIView.view parent (session_slug x) request now st
       = served).
Proof.
  intros Hm Hu Hs Hpk Hx Hrel. cbn zeta.
  pose proof (status_match_rows st parent x Hu Hs Hpk Hx Hrel) as Hrows.
  split_and!; intros Hst; rewrite Hst in Hrows.
  - unfold ProposerRetrieveUpdateDestroyAPIView.view.
    erewrite dispatch_handler;
      [|by cbn; rewrite Hm, GET_is_safe|by rewrite Hm].
    unfold ProposerRetrieveUpdateDestroyAPIView.retrieve, session_retrieve,
      ProposerRetrieveUpdateDestroyAPIView.get_queryset, get_object.
    unfold mbind at 1 2. unfold ORM_bind.
    rewrite get_object_or_404_rows, Hrows.
    unfold check_object_permissions. cbn. by rewrite Hm, GET_is_safe.
  - unfold SessionRetrieveAPIView.view.
    erewrite dispatch_handler; [|done|by rewrite Hm].
    unfold SessionRetrieveAPIView.retrieve, session_retrieve,
      SessionRetrieveAPIView.get_queryset, get_object.
    unfold mbind at 1 2. unfold ORM_bind.
    by rewrite get_object_or_404_rows, Hrows.
  - unfold DeniedSessionRetrieveAPIView.view.
    erewrite dispatch_handler; [|done|by rewrite Hm].
    unfold DeniedSessionRetrieveAPIView.retrieve, session_retrieve,
      DeniedSessionRetrieveAPIView.get_queryset, get_object.
    unfold mbind at 1 2. unfold ORM_bind.
    by rewrite get_object_or_404_rows, Hrows.
Qed.

Lemma session_served_on_its_surface_witness :
  let accepted := Fixture.talk 2 "asyncio" "Accepted" Fixture.pycon in
  SessionRetrieveAPIView.view (project := Fixture.project) "pycon-2024"
    "asyncio" (Fixture.request GET AnonymousUser) 100 Fixture.store =
    (Response_ (Object (Fixture.render_session accepted)) status.HTTP_200_OK,
     Fixture.store, [SQL_SELECT session_table]).
Proof.
  intros accepted.
  destruct (session_served_on_its_surface (project := Fixture.project)
              (Fixture.request GET AnonymousUser) 100 Fixture.store
              "pycon-2024" accepted) as (_ & Haccepted & _).
  - reflexivity.
  - refine (bool_decide_unpack _ _). vm_compute. exact I.
  - refine (bool_decide_unpack _ _). vm_compute. exact I.
  - refine (bool_decide_unpack _ _). vm_compute. exact I.
  - refine (bool_decide_unpack _ _). vm_compute. exact I.
  - refine (bool_decide_unpack _ _). vm_compute. exact I.
  - apply Haccepted. reflexivity.
Defined.

(** X13.  After a session has been proposed under an event, the draft list
    of the event holds the new row exactly when the row the serializer
    built has the status Draft. *)
Theorem proposed_session_listed {project : Project}
    request request' now now' st e id v :
  method request = POST → user request = AuthUser id →
  SessionRetrieveCreateUpdateSerializer_create st (data request) = Some v →
  method request' = GET → search_param (query_params request') = [] →
  event_slugs_unique st → e ∈ events st →
  let st' :=
    store_of (ProposerListCreateAPIView.view (event_slug e) request now st) in
  ∃ rows,
    response_of (ProposerListCreateAPIView.view (event_slug e) request' now'
                   st')
      = Response_ (Array (SessionListSerializer <$> rows)) status.HTTP_200_OK
    ∧ (proposed_row st id e v ∈ rows ↔ session_status v = "Draft").
Proof.
  intros Hm Hu Hv Hm' Hs Huniq He. cbn zeta.
  unfold ProposerListCreateAPIView.view at 2.
  rewrite (dispatch_handler _ _ _
             (ProposerListCreateAPIView.create request (event_slug e)));
    [|cbn; rewrite Hu; cbn; by rewrite orb_true_r|by rewrite Hm].
  rewrite (proposer_create_found _ _ _ id v) by done.
  unfold store_of at 1; cbn [serve fst snd].
  rewrite proposer_list_GET by done.
  eexists. split; [reflexivity|].
  unfold ProposerListCreateAPIView.get_queryset.
  rewrite session_listing_elem by done. cbn. split; [tauto|].
  intros Hst. split_and!; [|done|].
  - apply elem_of_app. right. left.
  - exists e. by split_and!.
Qed.

Lemma proposed_session_listed_witness :
  let st' :=
    store_of (ProposerListCreateAPIView.view (project := Fixture.project)
                "pycon-2024" (Fixture.request POST (AuthUser 9)) 100
                Fixture.store) in
  ∃ rows,
    response_of (ProposerListCreateAPIView.view (project := Fixture.project)
                   "pycon-2024" (Fixture.request GET AnonymousUser) 101 st')
      = Response_ (Array (Fixture.render_session <$> rows)) status.HTTP_200_OK
    ∧ (proposed_row Fixture.store 9 Fixture.pycon
         (Fixture.talk 0 "" "Draft" Fixture.pycon) ∈ rows
       ↔ "Draft" = "Draft").
Proof.
  apply (proposed_session_listed (project := Fixture.project)
           (Fixture.request POST (AuthUser 9))
           (Fixture.request GET AnonymousUser) 100 101 Fixture.store
           Fixture.pycon 9
           {| session_pk := 0; session_title := ""; session_description := "";
              session_slug := ""; session_status := "Draft";
              session_type := "talk"; proposed_by := 0;
              session_events := 0 |}).
  - reflexivity.
  - reflexivity.
  - reflexivity.
  - reflexivity.
  - reflexivity.
  - refine (bool_decide_unpack _ _). vm_compute. exact I.
  - refine (bool_decide_unpack _ _). vm_compute. exact I.
Defined.

(** ** X14: a deleted event *)

(** X14.  Once its host has deleted an event, no event answers to its slug:
    the retrieve view, the attendee list and an authenticated signup all
    answer 404 for it. *)
Theorem deleted_event_is_gone {project : Project} {lists : ProjectLists}
    request request' request'' now now' st e id id' :
  method request = DELETE → user request = AuthUser id → hosted_by e = id →
  event_slugs_unique st → e ∈ events st →
  method request' = GET →
  method request'' = POST → user request'' = AuthUser id' →
  let st' :=
    store_of (EventRetrieveUpdateDestroyAPIView.view (event_slug e)
                request now st) in
  (e ∉ events st')
  ∧ response_of (EventRetrieveUpdateDestroyAPIView.view (event_slug e)
                   request' now' st') = not_found_response
  ∧ response_of (attendee_list_view (event_slug e) request' now' st')
    = not_found_response
  ∧ response_of (sign_up_to_event_view (event_slug e) request'' now' st')
    = not_found_response.
Proof.
  intros Hm Hu Hhost Huniq He Hm' Hm'' Hu''. cbn zeta.
  rewrite (event_DELETE _ _ _ _ id), decide_True by done.
  unfold store_of at 1 2 3 4; cbn [fst snd].
  assert (∀ e', e' ∈ events (without_event st e) → event_slug e' ≠ event_slug e)
    as Hgone.
  { cbn. intros e' [Hpk He']%list_elem_of_filter Hslug. apply Hpk.
    by rewrite (NoDup_fmap_eq event_slug (events st) e' e Huniq). }
  split_and!.
  - cbn. rewrite list_elem_of_filter. tauto.
  - rewrite event_retrieve_GET, event_retrieve_failed; [done| |done].
    intros e'. by rewrite event_rows_missing.
  - by rewrite attendee_list_GET, attendee_list_rows, event_rows_missing.
  - by rewrite (sign_up_missing_event _ _ _ _ id').
Qed.

Lemma deleted_event_is_gone_witness :
  let st' :=
    store_of (EventRetrieveUpdateDestroyAPIView.view
                (project := Fixture.project) "pycon-2024"
                (Fixture.request DELETE (AuthUser 7)) 100 Fixture.store) in
  (Fixture.pycon ∉ events st')
  ∧ response_of (EventRetrieveUpdateDestroyAPIView.view
                   (project := Fixture.project) "pycon-2024"
                   (Fixture.request GET AnonymousUser) 101 st')
    = not_found_response
  ∧ response_of (attendee_list_view (lists := FixtureLists.lists)
                   "pycon-2024" (Fixture.request GET AnonymousUser) 101 st')
    = not_found_response
  ∧ response_of (sign_up_to_event_view "pycon-2024"
                   (Fixture.request POST (AuthUser 9)) 101 st')
    = not_found_response.
Proof.
  apply (deleted_event_is_gone (project := Fixture.project)
           (lists := FixtureLists.lists)
           (Fixture.request DELETE (AuthUser 7))
           (Fixture.request GET AnonymousUser)
           (Fixture.request POST (AuthUser 9)) 100 101 Fixture.store
           Fixture.pycon 7 9).
  - reflexivity.
  - reflexivity.
  - reflexivity.
  - refine (bool_decide_unpack _ _). vm_compute. exact I.
  - refine (bool_decide_unpack _ _). vm_compute. exact I.
  - reflexivity.
  - reflexivity.
  - reflexivity.
Defined.

(** ** X15, X16, X17: the query string of the event list *)

Lemma value_compare_antisym a b :
  value_compare b a = CompOpp (value_compare a b).
Proof.
  destruct a as [[m|s]|], b as [[n|t]|]; cbn; try done.
  - apply Z.compare_antisym.
  - apply String.compare_antisym.
Qed.

Lemma row_compare_antisym `{Model A} terms (a b : A) :
  row_compare terms b a = CompOpp (row_compare terms a b).
Proof.
  induction terms as [|[desc name] terms IH]; [done|]. cbn.
  rewrite (value_compare_antisym (field name a) (field name b)).
  destruct (value_compare (field name a) (field name b)); cbn; [done|..];
    by destruct desc.
Qed.

Lemma row_le_total `{Model A} terms : Total (row_le (A := A) terms).
Proof.
  intros a b. unfold row_le. rewrite (row_compare_antisym terms a b).
  destruct (row_compare terms a b); cbn; auto.
Qed.

Lemma row_le_event_date_desc (a b : Event) :
  row_le [(true, "event_date")] a b ↔ event_date b ≤ event_date a.
Proof.
  unfold row_le. cbn.
  destruct (Z.compare_spec (event_date a) (event_date b)); cbn;
    split; (done || lia).
Qed.

(** The ordering a request ends up with is never empty on the event list:
    the view has a default. *)
Lemma event_get_ordering_nonempty request :
  filters.get_ordering EventListCreateAPIView.ordering_fields
    EventListCreateAPIView.ordering request ≠ [].
Proof.
  unfold filters.get_ordering. by case_match.
Qed.

(** The rows the event list renders: the class queryset through the filter
    set, sorted, then narrowed by the search words. *)
Lemma event_list_rows {project : Project} import_time request now st f :
  method request = GET →
  EventFilter (filter_params (query_params request)) = Some f →
  ∃ rows,
    EventListCreateAPIView.view import_time request now st =
      (Response_ (Array (EventListSerializer <$> rows)) status.HTTP_200_OK,
       st, SQL_SELECT event_table :: prefetch_queries [tags_table] rows)
    ∧ rows =
        let sorted :=
          merge_sort
            (row_le (filters.get_ordering EventListCreateAPIView.ordering_fields
                       EventListCreateAPIView.ordering request))
            (filter (event_filter_matches f)
               (filter (event_date__gt import_time) (events st))) in
        match search_param (query_params request) with
        | [] => sorted
        | terms =>
            filter (filters.search_matches EventListCreateAPIView.search_fields
                      terms) sorted
        end.
Proof.
  intros Hm Hf. eexists. split; [by apply event_list_GET|].
  pose proof (event_get_ordering_nonempty request) as Hne.
  unfold filters.SearchFilter, filters.OrderingFilter. cbn.
  destruct (filters.get_ordering _ _ _) as [|t ts]; [done|].
  by destruct (search_param (query_params request)).
Qed.

(** X15.  The [ordering=] parameter of the event list only reorders: the
    rows listed are a permutation of those listed without it, and when none
    of its terms names one of [total_guest], [event_date], [read_time] the
    response is the one without it. *)
Theorem event_list_ordering_only_reorders {project : Project}
    import_time request now st f terms :
  method request = GET →
  EventFilter (filter_params (query_params request)) = Some f →
  ∃ rows rows0,
    response_of (EventListCreateAPIView.view import_time
                   (with_ordering request terms) now st)
      = Response_ (Array (EventListSerializer <$> rows)) status.HTTP_200_OK
    ∧ response_of (EventListCreateAPIView.view import_time
                     (with_ordering request []) now st)
      = Response_ (Array (EventListSerializer <$> rows0)) status.HTTP_200_OK
    ∧ rows ≡ₚ rows0
    ∧ (Forall (λ t, t.2 ∉ EventListCreateAPIView.ordering_fields) terms →
       rows = rows0).
Proof.
  intros Hm Hf.
  destruct (event_list_rows import_time (with_ordering request terms) now st f)
    as (rows & -> & Hrows); [done..|].
  destruct (event_list_rows import_time (with_ordering request []) now st f)
    as (rows0 & -> & Hrows0); [done..|].
  exists rows, rows0. split; [done|]. split; [done|].
  cbn zeta in *. cbn [with_ordering query_params search_param] in *.
  split.
  - rewrite Hrows, Hrows0.
    destruct (search_param (query_params request));
      by rewrite !merge_sort_Permutation.
  - intros Hbad. rewrite Hrows, Hrows0.
    assert (filters.get_ordering EventListCreateAPIView.ordering_fields
              EventListCreateAPIView.ordering (with_ordering request terms)
            = filters.get_ordering EventListCreateAPIView.ordering_fields
                EventListCreateAPIView.ordering (with_ordering request []))
      as ->; [|done].
    unfold filters.get_ordering. cbn.
    rewrite filter_no_match; [done|].
    intros t Ht. rewrite Forall_forall in Hbad. by apply Hbad.
Qed.

Lemma event_list_ordering_only_reorders_witness :
  ∃ rows rows0,
    response_of (EventListCreateAPIView.view (project := Fixture.project) 50
                   (with_ordering (Fixture.request GET AnonymousUser)
                      [(true, "title")]) 100 Fixture.store)
      = Response_ (Array (Fixture.render_event <$> rows)) status.HTTP_200_OK
    ∧ response_of (EventListCreateAPIView.view (project := Fixture.project) 50
                     (with_ordering (Fixture.request GET AnonymousUser) [])
                     100 Fixture.store)
      = Response_ (Array (Fixture.render_event <$> rows0)) status.HTTP_200_OK
    ∧ rows ≡ₚ rows0
    ∧ (Forall (λ t, t.2 ∉ EventListCreateAPIView.ordering_fields)
         [(true, "title")] → rows = rows0).
Proof.
  apply (event_list_ordering_only_reorders (project := Fixture.project) 50
           (Fixture.request GET AnonymousUser) 100 Fixture.store (λ _, true)).
  - reflexivity.
  - reflexivity.
Defined.

(** X16.  Without search words, the event list comes sorted by the terms
    of [ordering=] that name a field of the view, or by the default when
    there is none; with [ordering=-event_date], the latest event first. *)
Theorem event_list_sorted {project : Project} import_time request now st f :
  method request = GET →
  EventFilter (filter_params (query_params request)) = Some f →
  search_param (query_params request) = [] →
  ∃ rows,
    response_of (EventListCreateAPIView.view import_time request now st)
      = Response_ (Array (EventListSerializer <$> rows)) status.HTTP_200_OK
    ∧ Sorted (row_le (filters.get_ordering
                        EventListCreateAPIView.ordering_fields
                        EventListCreateAPIView.ordering request)) rows
    ∧ (ordering_param (query_params request) = [(true, "event_date")] →
       Sorted (λ a b, event_date b ≤ event_date a) rows).
Proof.
  intros Hm Hf Hs.
  destruct (event_list_rows import_time request now st f)
    as (rows & -> & Hrows); [done..|].
  exists rows. split; [done|]. cbn zeta in Hrows. rewrite Hs in Hrows.
  assert (Sorted (row_le (filters.get_ordering
                            EventListCreateAPIView.ordering_fields
                            EventListCreateAPIView.ordering request)) rows)
    as Hsorted.
  { rewrite Hrows. apply (@Sorted_merge_sort _ _ _ (row_le_total _)). }
  split; [done|]. intros Hdesc.
  eapply Sorted_weaken; [|exact Hsorted].
  unfold filters.get_ordering. rewrite Hdesc.
  intros a b. apply row_le_event_date_desc.
Qed.

Lemma event_list_sorted_witness :
  let request :=
    with_ordering (Fixture.request GET AnonymousUser) [(true, "event_date")] in
  ∃ rows,
    response_of (EventListCreateAPIView.view (project := Fixture.project) 50
                   request 100 Fixture.store)
      = Response_ (Array (Fixture.render_event <$> rows)) status.HTTP_200_OK
    ∧ Sorted (row_le (filters.get_ordering
                        EventListCreateAPIView.ordering_fields
                        EventListCreateAPIView.ordering request)) rows
    ∧ ([(true, "event_date")] = [(true, "event_date")] →
       Sorted (λ a b, event_date b ≤ event_date a) rows).
Proof.
  intros request.
  apply (event_list_sorted (project := Fixture.project) 50 request 100
           Fixture.store (λ _, true)).
  - reflexivity.
  - reflexivity.
  - reflexivity.
Defined.

(** The latest event comes first in the sample store. *)
Example event_list_latest_first :
  resp_data (response_of
    (EventListCreateAPIView.view (project := Fixture.project) 50
       (with_ordering (Fixture.request GET AnonymousUser)
          [(true, "event_date")]) 100 Fixture.store))
  = Array [Fixture.render_event Fixture.djangocon;
           Fixture.render_event Fixture.pycon].
Proof. vm_compute. reflexivity. Qed.

(** X17.  Whatever the query string, the event list holds exactly the
    stored events that are dated after the import of the module, pass the
    filter set, and have every search word, in any case, in their title or
    their description. *)
Theorem event_list_membership {project : Project}
    import_time request now st f :
  method request = GET →
  EventFilter (filter_params (query_params request)) = Some f →
  ∃ rows,
    response_of (EventListCreateAPIView.view import_time request now st)
      = Response_ (Array (EventListSerializer <$> rows)) status.HTTP_200_OK
    ∧ ∀ e, e ∈ rows ↔
        e ∈ events st ∧ import_time < event_date e ∧ f e = true
        ∧ Forall (λ word,
            contains (lowercase word) (lowercase (event_title e)) = true
            ∨ contains (lowercase word) (lowercase (event_description e))
              = true)
            (search_param (query_params request)).
Proof.
  intros Hm Hf.
  destruct (event_list_rows import_time request now st f)
    as (rows & -> & Hrows); [done..|].
  exists rows. split; [done|]. intros e. cbn zeta in Hrows. rewrite Hrows.
  assert (e ∈ merge_sort
                (row_le (filters.get_ordering
                           EventListCreateAPIView.ordering_fields
                           EventListCreateAPIView.ordering request))
                (filter (event_filter_matches f)
                   (filter (event_date__gt import_time) (events st)))
          ↔ e ∈ events st ∧ import_time < event_date e ∧ f e = true) as Hbase.
  { rewrite merge_sort_Permutation, !list_elem_of_filter.
    unfold event_filter_matches, event_date__gt. tauto. }
  destruct (search_param (query_params request)) as [|w ws] eqn:Hs.
  - rewrite Hbase. split; [|tauto]. intros (? & ? & ?). by split_and!.
  - rewrite list_elem_of_filter, Hbase.
    unfold filters.search_matches. rewrite forallb_forall, Forall_forall.
    assert (∀ word,
      existsb (λ name, icontains name word e)
        EventListCreateAPIView.search_fields = true
      ↔ contains (lowercase word) (lowercase (event_title e)) = true
        ∨ contains (lowercase word) (lowercase (event_description e)) = true)
      as Hword.
    { intros word. cbn. rewrite !orb_true_iff. unfold icontains. cbn.
      intuition discriminate. }
    split.
    + intros (Hall & ? & ? & ?). split_and!; try done.
      intros word Hin. apply Hword, Hall. by apply list_elem_of_In.
    + intros (? & ? & ? & Hall). split_and!; try done.
      intros word Hin. apply Hword, Hall. by apply list_elem_of_In.
Qed.

Lemma event_list_membership_witness :
  let request :=
    {| method := GET; user := AnonymousUser;
       query_params :=
         {| ordering_param := []; search_param := ["PYTHON"];
            filter_params := [] |};
       data := ∅; www_authenticate := true |} in
  ∃ rows,
    response_of (EventListCreateAPIView.view (project := Fixture.project) 50
                   request 100 Fixture.store)
      = Response_ (Array (Fixture.render_event <$> rows)) status.HTTP_200_OK
    ∧ ∀ e, e ∈ rows ↔
        e ∈ events Fixture.store ∧ 50 < event_date e ∧ true = true
        ∧ Forall (λ word,
            contains (lowercase word) (lowercase (event_title e)) = true
            ∨ contains (lowercase word) (lowercase (event_description e))
              = true)
            ["PYTHON"].
Proof.
  intros request.
  apply (event_list_membership (project := Fixture.project) 50 request 100
           Fixture.store (λ _, true)).
  - reflexivity.
  - reflexivity.
Defined.

(** The search word of the witness, in capitals, finds the event whose
    description has it in small letters. *)
Example event_list_search :
  resp_data (response_of
    (EventListCreateAPIView.view (project := Fixture.project) 50
       {| method := GET; user := AnonymousUser;
          query_params :=
            {| ordering_param := []; search_param := ["PYTHON"];
               filter_params := [] |};
          data := ∅; www_authenticate := true |} 100 Fixture.store))
  = Array [Fixture.render_event Fixture.pycon].
Proof. vm_compute. reflexivity. Qed.
